(** * The EOS driver of napalm: staging, commit, discard and rollback

    A shallow embedding of [napalm/eos.py] (class [EOSDriver]) and the
    properties of its configuration life cycle.

    The driver is a Python object with three mutable attributes
    ([config_replace], [candidate_configuration], [config_session]) that
    talks to a switch through a [pyEOS.EOS] object, [self.device].  The
    pyEOS library is not part of the repository: it is taken here as an
    interface ([EOS]) over an abstract device state, each method returning
    either a value or an exception.  Every call the driver makes on
    [self.device] is recorded, in order, in the [calls] field of the
    state, so that "what is sent to the device" is an observable of the
    model. *)

From Stdlib Require Import String Ascii List Bool Arith Lia.
Import ListNotations.
Open Scope string_scope.

Set Implicit Arguments.

(** ** Python values and string operations used by the driver *)

Module Py.

(** [str.split(sep)] for a one-character separator: every occurrence of
    the separator ends a field, so the result is never empty. *)
Fixpoint split (sep : ascii) (s : string) : list string :=
  match s with
  | EmptyString => [EmptyString]
  | String c s' =>
      if Ascii.eqb c sep then EmptyString :: split sep s'
      else match split sep s' with
           | [] => [String c EmptyString]
           | w :: ws => String c w :: ws
           end
  end.

(** The characters [str.strip()] removes: space, tab, line feed,
    vertical tab, form feed and carriage return. *)
Definition isspace (c : ascii) : bool :=
  let n := nat_of_ascii c in
  Nat.eqb n 32 || (Nat.leb 9 n && Nat.leb n 13).

Fixpoint lstrip (s : string) : string :=
  match s with
  | EmptyString => EmptyString
  | String c s' => if isspace c then lstrip s' else s
  end.

Fixpoint rstrip (s : string) : string :=
  match s with
  | EmptyString => EmptyString
  | String c s' =>
      match rstrip s' with
      | EmptyString => if isspace c then EmptyString else String c EmptyString
      | r => String c r
      end
  end.

Definition strip (s : string) : string := rstrip (lstrip s).

(** [x in l] on a list of strings. *)
Fixpoint contains (x : string) (l : list string) : bool :=
  match l with
  | [] => false
  | y :: l' => String.eqb y x || contains x l'
  end.

(** [l.remove(x)]: deletes the first element equal to [x].  (Python
    raises ValueError when there is none; the driver only calls it under
    [if x in l].) *)
Fixpoint remove (x : string) (l : list string) : list string :=
  match l with
  | [] => []
  | y :: l' => if String.eqb y x then l' else y :: remove x l'
  end.

(** ['%s' % v] for [v] a string or [None]. *)
Definition percent_s (v : option string) : string :=
  match v with
  | Some s => s
  | None => "None"
  end.

End Py.

(** ** Exceptions *)

(** [CommandError] and [ConfigReplaceError] are raised by pyEOS;
    [MergeConfigException] and [ReplaceConfigException] are the driver's
    own, from napalm's [exceptions] module, built with one argument, the
    message.  [AttributeError] and [IOError] are Python's. *)
Inductive exn : Type :=
| CommandError (message : string)            (* pyEOS.exceptions *)
| ConfigReplaceError (message : string)      (* pyEOS.exceptions *)
| MergeConfigException (message : string)    (* napalm exceptions *)
| ReplaceConfigException (message : string)  (* napalm exceptions *)
| AttributeError (message : string)
| IOError (message : string)
| OtherError (message : string).

Inductive outcome (A : Type) : Type :=
| Return (a : A)
| Raise (e : exn).
Arguments Return {A} a.
Arguments Raise {A} e.

(** ** The device object (pyEOS) as an interface *)

(** The four methods of [pyEOS.EOS] the configuration life cycle uses.
    [load_candidate_config] takes [filename] and [config]; [get_config]
    takes [format]. *)
Class EOS (D : Type) : Type := {
  run_commands : list string -> D -> outcome unit * D;
  load_candidate_config : option string -> option string -> D -> outcome unit * D;
  replace_config : D -> outcome unit * D;
  get_config : string -> D -> outcome string * D
}.

(** A call of the driver on [self.device], with its arguments. *)
Inductive call : Type :=
| RunCommands (commands : list string)
| LoadCandidateConfig (filename config : option string)
| ReplaceConfig
| GetConfig (format : string).

(** ** The driver object *)

(** [candidate_configuration] is a list after [__init__] and after a
    staging that got as far as the split; it is [None] when a staging was
    called with neither a file nor a text.  (The text itself is held in
    the attribute only between the assignment and the split, two
    statements with nothing observable in between.) *)
Record EOSDriver : Type := mkEOSDriver {
  config_replace : bool;
  candidate_configuration : option (list string);
  config_session : option string
}.

(** The attributes set by [EOSDriver.__init__]. *)
Definition init : EOSDriver :=
  {| config_replace := false;
     candidate_configuration := Some [];
     config_session := None |}.

(** The driver, the device behind it, the calls made on the device so
    far (oldest first) and the files [open] can read. *)
Record state (D : Type) : Type := mkState {
  self : EOSDriver;
  device : D;
  calls : list call;
  files : string -> option string
}.

(** ** Python statements as a state and exception monad *)

(** A statement transforms the state and returns or raises; what was
    assigned before a [raise] stays assigned. *)
Definition M (D A : Type) : Type := state D -> outcome A * state D.

Definition ret {D A} (a : A) : M D A := fun s => (Return a, s).

Definition raise {D A} (e : exn) : M D A := fun s => (Raise e, s).

Definition bind {D A B} (m : M D A) (k : A -> M D B) : M D B :=
  fun s => match m s with
           | (Return a, s') => k a s'
           | (Raise e, s') => (Raise e, s')
           end.

Definition try_except {D A} (m : M D A) (h : exn -> M D A) : M D A :=
  fun s => match m s with
           | (Return a, s') => (Return a, s')
           | (Raise e, s') => h e s'
           end.

Notation "x <- m ;; k" := (bind m (fun x => k))
  (at level 61, m at next level, right associativity).
Notation "m ;; k" := (bind m (fun _ => k))
  (at level 61, right associativity).

Definition gets {D A} (f : EOSDriver -> A) : M D A :=
  fun s => (Return (f (self s)), s).

Definition set_self {D} (f : EOSDriver -> EOSDriver) : M D unit :=
  fun s => (Return tt,
            {| self := f (self s); device := device s;
               calls := calls s; files := files s |}).

Definition set_config_replace {D} (b : bool) : M D unit :=
  set_self (fun d => {| config_replace := b;
                        candidate_configuration := candidate_configuration d;
                        config_session := config_session d |}).

Definition set_candidate_configuration {D} (c : option (list string)) : M D unit :=
  set_self (fun d => {| config_replace := config_replace d;
                        candidate_configuration := c;
                        config_session := config_session d |}).

Definition set_config_session {D} (n : option string) : M D unit :=
  set_self (fun d => {| config_replace := config_replace d;
                        candidate_configuration := candidate_configuration d;
                        config_session := n |}).

(** [with open(filename) as f: f.read()] *)
Definition open_read {D} (filename : string) : M D string :=
  fun s => match files s filename with
           | Some text => (Return text, s)
           | None => (Raise (IOError "No such file or directory"), s)
           end.

(** A method call on [self.device]: the call is recorded, the device
    answers and moves to its next state. *)
Definition on_device {D A} (c : call) (f : D -> outcome A * D) : M D A :=
  fun s => let (r, d) := f (device s) in
           (r, {| self := self s; device := d;
                  calls := calls s ++ [c]; files := files s |}).

Section Driver.

Context {D : Type} {eos : EOS D}.

Definition device_run_commands (commands : list string) : M D unit :=
  on_device (RunCommands commands) (run_commands commands).

Definition device_load_candidate_config (filename config : option string) : M D unit :=
  on_device (LoadCandidateConfig filename config)
            (load_candidate_config filename config).

Definition device_replace_config : M D unit :=
  on_device ReplaceConfig replace_config.

Definition device_get_config (format : string) : M D string :=
  on_device (GetConfig format) (get_config format).

(** *** The methods of [EOSDriver] *)

(** The loop of [_load_and_test_config] that drops the lines that are
    empty once stripped. *)
Definition clean_candidate (text : string) : list string :=
  filter (fun line => negb (String.eqb (Py.strip line) ""))
         (Py.split "010"%char text).

(** [if 'end' in l: l.remove('end')] *)
Definition remove_end (l : list string) : list string :=
  if Py.contains "end" l then Py.remove "end" l else l.

(** The text a staging call works on: the inline [config] when no
    [filename] is given, the content of the file otherwise.  [None] when
    neither is given (or when the file cannot be read, which raises
    before anything else happens). *)
Definition staged_text (files : string -> option string)
    (filename config : option string) : option string :=
  match filename with
  | None => config
  | Some name => files name
  end.

(** [discard_config] *)
Definition discard_config : M D unit :=
  session <- gets config_session ;;
  match session with
  | Some name =>
      device_run_commands ["configure session " ++ name; "abort"] ;;
      set_config_session None
  | None => ret tt
  end ;;
  text <- device_get_config "text" ;;
  device_load_candidate_config None (Some text).

(** [_load_and_test_config].  [now] is the text that
    [datetime.now().strftime('%Y%m%d-%H%m%s')] gives at the call. *)
Definition _load_and_test_config (now : string)
    (filename config : option string) (overwrite : bool) : M D unit :=
  source <- match filename with
            | None => ret config
            | Some name => text <- open_read name ;; ret (Some text)
            end ;;
  match source with
  | None =>
      set_candidate_configuration None ;;
      raise (AttributeError "'NoneType' object has no attribute 'split'")
  | Some text =>
      set_candidate_configuration (Some (clean_candidate text)) ;;
      let test_config := remove_end (clean_candidate text) in
      test_config <-
        (if overwrite then
           ret ("configure session test" :: test_config ++ ["abort"])
         else
           set_config_session (Some ("napalm_commit_" ++ now)) ;;
           session <- gets config_session ;;
           ret (("configure session " ++ Py.percent_s session)
                  :: test_config ++ ["end"])) ;;
      device_run_commands test_config
  end.

(** [load_replace_candidate] *)
Definition load_replace_candidate (filename config : option string) : M D unit :=
  set_config_replace true ;;
  device_load_candidate_config filename config.

(** [load_merge_candidate] *)
Definition load_merge_candidate (now : string)
    (filename config : option string) : M D unit :=
  try_except
    (_load_and_test_config now filename config false ;;
     set_config_replace false)
    (fun e => match e with
              | CommandError message =>
                  discard_config ;;
                  raise (MergeConfigException message)
              | _ => raise e
              end).

(** [_commit_replace] *)
Definition _commit_replace : M D unit :=
  try_except device_replace_config
    (fun e => match e with
              | ConfigReplaceError message =>
                  raise (ReplaceConfigException message)
              | _ => raise e
              end).

(** The list [_commit_merge] builds in place from the candidate [l]: two
    [insert(0, ...)], the removal of ['end'], the [append]. *)
Definition commit_sequence (session : option string) (l : list string)
    : list string :=
  let l := "copy startup-config flash:rollback-0" :: l in
  let l := ("configure session " ++ Py.percent_s session) :: l in
  let l := remove_end l in
  l ++ ["commit"].

(** [_commit_merge] *)
Definition _commit_merge : M D unit :=
  candidate <- gets candidate_configuration ;;
  match candidate with
  | None =>
      raise (AttributeError "'NoneType' object has no attribute 'insert'")
  | Some l =>
      session <- gets config_session ;;
      set_candidate_configuration (Some (commit_sequence session l)) ;;
      device_run_commands (commit_sequence session l)
  end.

(** [commit_config] *)
Definition commit_config : M D unit :=
  replace <- gets config_replace ;;
  (if replace : bool then _commit_replace else _commit_merge) ;;
  device_run_commands ["write memory"].

(** [rollback] *)
Definition rollback : M D unit :=
  device_run_commands ["configure replace flash:rollback-0"] ;;
  device_run_commands ["write memory"] ;;
  text <- device_get_config "text" ;;
  device_load_candidate_config None (Some text).

End Driver.

(** ** A switch to run the driver against *)

(** A device that holds its running configuration as a text, rejects a
    command sequence that has the line [bogus] in it and accepts every
    other one. *)
Module Lab.

Definition reject : string := "bogus".

#[export] Instance switch : EOS string := {
  run_commands cmds running :=
    if Py.contains reject cmds
    then (Raise (CommandError "Invalid input"), running)
    else (Return tt, running);
  load_candidate_config _ _ running := (Return tt, running);
  replace_config running := (Return tt, running);
  get_config _ running := (Return running, running)
}.

(** A new driver in front of the switch, nothing sent yet, no files. *)
Definition start : state string :=
  {| self := init; device := "hostname sw1"; calls := [];
     files := fun _ => None |}.

Definition nl : string := String "010"%char EmptyString.

(** What [strftime] gave at some call. *)
Definition stamp : string := "20151104-10111446631200".

(** What it gave one second later. *)
Definition later_stamp : string := "20151104-10111446631201".

(** The state after a merge staging of [text] at [stamp]. *)
Definition staged (text : string) : state string :=
  snd (load_merge_candidate stamp None (Some text) start).

(** Configuration texts. *)
Definition with_end : string := "hostname lab" ++ nl ++ "end".

Definition with_blank_line : string :=
  "hostname lab" ++ nl ++ nl ++ "interface Ethernet1".

Definition with_two_ends : string :=
  "interface Ethernet1" ++ nl ++ "end" ++ nl ++
  "interface Ethernet2" ++ nl ++ "end".

Definition with_rejected_line : string := "hostname lab" ++ nl ++ reject.

End Lab.

(** ** The diff query *)

(** What [compare_config] asks the device: [self.device.compare_config()]
    in replace mode, and in merge mode [run_commands] with
    [format='text'] on one command, of which it returns the [output] of
    the result at index 1. *)
Inductive diff_query : Type :=
| CompareConfig
| RunCommandsText (commands : list string).

(** The branch of [compare_config] and the command list it builds, as a
    function of the driver's attributes. *)
Definition compare_config_query (d : EOSDriver) : diff_query :=
  if config_replace d then CompareConfig
  else RunCommandsText
         ["show session-config named " ++ Py.percent_s (config_session d)
            ++ " diffs"].

(** ** Link-layer neighbours *)

Module Lldp.

(** The values of the device's answer that [get_lldp_neighbors] handles:
    JSON strings and numbers. *)
Inductive json : Type :=
| JString (s : string)
| JNumber (n : nat).

Definition json_eqb (a b : json) : bool :=
  match a, b with
  | JString s, JString t => String.eqb s t
  | JNumber n, JNumber m => Nat.eqb n m
  | _, _ => false
  end.

(** A JSON object of the answer, a dict with string keys. *)
Definition object : Type := list (string * json).

Inductive result (A : Type) : Type :=
| Value (a : A)
| KeyError (key : string).
Arguments Value {A} a.
Arguments KeyError {A} key.

(** [n[key]] *)
Fixpoint getitem (key : string) (n : object) : result json :=
  match n with
  | [] => KeyError key
  | (k, v) :: n' => if String.eqb k key then Value v else getitem key n'
  end.

(** An element of the lists the method returns: a dict with the three
    keys [hostname], [port] and [ttl]. *)
Record neighbor : Type := mkNeighbor {
  hostname : json;
  port : json;
  ttl : json
}.

(** The dict display of the loop body, its values read in the order they
    are written. *)
Definition neighbor_of (n : object) : result neighbor :=
  match getitem "neighborDevice" n with
  | KeyError k => KeyError k
  | Value h =>
      match getitem "neighborPort" n with
      | KeyError k => KeyError k
      | Value p =>
          match getitem "ttl" n with
          | KeyError k => KeyError k
          | Value t => Value {| hostname := h; port := p; ttl := t |}
          end
      end
  end.

(** The dict [lldp], from local port to the list of its neighbours: one
    pair per key. *)
Definition table : Type := list (json * list neighbor).

(** [key in lldp.keys()] *)
Fixpoint has_key (key : json) (lldp : table) : bool :=
  match lldp with
  | [] => false
  | (k, _) :: lldp' => json_eqb k key || has_key key lldp'
  end.

(** [lldp.get(key)], for reading the result. *)
Fixpoint lookup (key : json) (lldp : table) : option (list neighbor) :=
  match lldp with
  | [] => None
  | (k, l) :: lldp' => if json_eqb k key then Some l else lookup key lldp'
  end.

(** [lldp[key].append(x)] for a key that is in the dict. *)
Fixpoint append_at (key : json) (x : neighbor) (lldp : table) : table :=
  match lldp with
  | [] => []
  | (k, l) :: lldp' =>
      if json_eqb k key then (k, (l ++ [x])%list) :: lldp'
      else (k, l) :: append_at key x lldp'
  end.

(** One turn of the loop. *)
Definition step (lldp : table) (n : object) : result table :=
  match getitem "port" n with
  | KeyError k => KeyError k
  | Value p =>
      let lldp := if has_key p lldp then lldp else (lldp ++ [(p, [])])%list in
      match neighbor_of n with
      | KeyError k => KeyError k
      | Value x => Value (append_at p x lldp)
      end
  end.

Fixpoint loop (lldp : table) (ns : list object) : result table :=
  match ns with
  | [] => Value lldp
  | n :: ns' =>
      match step lldp n with
      | KeyError k => KeyError k
      | Value lldp' => loop lldp' ns'
      end
  end.

(** [get_lldp_neighbors], on the list that
    [self.device.show_lldp_neighbors()['lldpNeighbors']] gave. *)
Definition get_lldp_neighbors (lldpNeighbors : list object) : result table :=
  loop [] lldpNeighbors.

(** The entries of the answer whose [port] is [p]. *)
Definition on_port (p : json) (n : object) : bool :=
  match getitem "port" n with
  | Value q => json_eqb q p
  | KeyError _ => false
  end.

(** An answer of a switch with two neighbours on one port. *)
Definition entry (local device remote : string) (t : nat) : object :=
  [("neighborDevice", JString device); ("neighborPort", JString remote);
   ("port", JString local); ("ttl", JNumber t)].

Definition answer : list object :=
  [entry "Ethernet1" "sw2" "Ethernet3" 120;
   entry "Ethernet2" "sw3" "Ethernet1" 120;
   entry "Ethernet1" "sw4" "Ethernet7" 90].

End Lldp.

(** ** More devices *)

Module Bench.

(** A device that refuses everything: no command sequence and no
    replacement is accepted. *)
#[export] Instance locked : EOS unit := {
  run_commands _ d := (Raise (CommandError "not authorized"), d);
  load_candidate_config _ _ d := (Return tt, d);
  replace_config d := (Raise (ConfigReplaceError "not authorized"), d);
  get_config _ d := (Return "hostname sw9", d)
}.

(** A device behind a link that holds for a number of calls and is lost
    after that. *)
#[export] Instance link : EOS nat := {
  run_commands _ d :=
    match d with
    | 0 => (Raise (OtherError "connection lost"), 0)
    | S k => (Return tt, k)
    end;
  load_candidate_config _ _ d := (Return tt, d);
  replace_config d :=
    match d with
    | 0 => (Raise (OtherError "connection lost"), 0)
    | S k => (Return tt, k)
    end;
  get_config _ d := (Return "hostname sw8", d)
}.

(** A new driver in front of a device in state [d], with one file. *)
Definition fresh {D : Type} (d : D) : state D :=
  {| self := init; device := d; calls := [];
     files := fun name =>
       if String.eqb name "/tmp/candidate.conf"
       then Some Lab.with_end else None |}.

(** The same with a replace candidate loaded. *)
Definition replacing {D : Type} (d : D) : state D :=
  {| self := {| config_replace := true;
                candidate_configuration := Some [];
                config_session := None |};
     device := d; calls := [];
     files := fun _ => None |}.

End Bench.

(** ** Proof steps *)

(** Unfolding of the methods and of the monad. *)
Ltac driver :=
  unfold commit_config, _commit_merge, _commit_replace, discard_config,
    rollback, load_merge_candidate, _load_and_test_config,
    load_replace_candidate, device_run_commands, device_get_config,
    device_load_candidate_config, device_replace_config, on_device,
    try_except, bind, gets, set_config_session, set_config_replace,
    set_candidate_configuration, set_self, ret, raise, open_read,
    staged_text in *.

(** Case analysis on the next answer of the device. *)
Ltac answer :=
  match goal with
  | |- context [run_commands ?c ?d] =>
      destruct (run_commands c d) as [[[]|?] ?] eqn:?
  | |- context [get_config ?f ?d] =>
      destruct (get_config f d) as [[?|?] ?] eqn:?
  | |- context [load_candidate_config ?f ?c ?d] =>
      destruct (load_candidate_config f c d) as [[[]|?] ?] eqn:?
  | |- context [replace_config ?d] =>
      destruct (replace_config d) as [[[]|?] ?] eqn:?
  end;
  cbn [self device calls files fst snd
       config_session config_replace candidate_configuration].

Ltac fields :=
  cbn [self device calls files fst snd
       config_session config_replace candidate_configuration] in *.

(** ** Lists: membership and removal of the first occurrence *)

Section ListFacts.

Lemma contains_In (x : string) (l : list string) :
  Py.contains x l = true <-> In x l.
Proof.
  induction l as [|y l IH]; simpl.
  - split; [discriminate | tauto].
  - rewrite orb_true_iff, IH, String.eqb_eq. tauto.
Qed.

Lemma contains_not_In (x : string) (l : list string) :
  Py.contains x l = false <-> ~ In x l.
Proof.
  rewrite <- contains_In. destruct (Py.contains x l); split; congruence.
Qed.

Lemma remove_first (x : string) (l1 l2 : list string) :
  ~ In x l1 -> Py.remove x (l1 ++ x :: l2) = (l1 ++ l2)%list.
Proof.
  induction l1 as [|y l1 IH]; simpl; intros H.
  - now rewrite String.eqb_refl.
  - destruct (String.eqb_spec y x) as [->|_]; [tauto|].
    rewrite IH; tauto.
Qed.

Lemma In_first (x : string) (l : list string) :
  In x l -> exists l1 l2, l = (l1 ++ x :: l2)%list /\ ~ In x l1.
Proof.
  induction l as [|y l IH]; simpl; [tauto|]. intros H.
  destruct (String.eqb_spec y x) as [->|Hne].
  - exists [], l. simpl. tauto.
  - destruct IH as (l1 & l2 & -> & Hn); [tauto|].
    exists (y :: l1), l2. simpl. split; [reflexivity|]. tauto.
Qed.

Lemma remove_end_first (l1 l2 : list string) :
  ~ In "end" l1 -> remove_end (l1 ++ "end" :: l2) = (l1 ++ l2)%list.
Proof.
  intros H. unfold remove_end.
  replace (Py.contains "end" (l1 ++ "end" :: l2)) with true.
  - now apply remove_first.
  - symmetry. apply contains_In, in_or_app. simpl. tauto.
Qed.

Lemma remove_end_absent (l : list string) :
  ~ In "end" l -> remove_end l = l.
Proof.
  intros H. unfold remove_end. apply contains_not_In in H. now rewrite H.
Qed.

Lemma remove_end_cons (x : string) (l : list string) :
  x <> "end" -> remove_end (x :: l) = x :: remove_end l.
Proof.
  intros H. unfold remove_end. simpl.
  destruct (String.eqb_spec x "end") as [|_]; [contradiction|]. simpl.
  now destruct (Py.contains "end" l).
Qed.

Lemma session_open_not_end (name : string) :
  "configure session " ++ name <> "end".
Proof. simpl. discriminate. Qed.

(** What [_commit_merge] sends, spelled out: the two inserted lines are
    never the line [end], so the removal works on the candidate. *)
Lemma commit_sequence_eq (session : option string) (l : list string) :
  commit_sequence session l =
  ("configure session " ++ Py.percent_s session)
    :: "copy startup-config flash:rollback-0"
    :: remove_end l ++ ["commit"].
Proof.
  unfold commit_sequence.
  rewrite remove_end_cons by apply session_open_not_end.
  rewrite remove_end_cons by discriminate.
  reflexivity.
Qed.

End ListFacts.

(** ** The driver against an arbitrary device *)

Section DriverFacts.

Context {D : Type} {eos : EOS D}.

(** The one device call of a merge staging that has a text to work on,
    and the state it is made in. *)
Lemma load_and_test_merge (s : state D) (now : string)
    (filename config : option string) (text : string) :
  staged_text (files s) filename config = Some text ->
  _load_and_test_config now filename config false s =
  device_run_commands
    (("configure session " ++ "napalm_commit_" ++ now)
       :: remove_end (clean_candidate text) ++ ["end"])
    {| self := {| config_replace := config_replace (self s);
                  candidate_configuration := Some (clean_candidate text);
                  config_session := Some ("napalm_commit_" ++ now) |};
       device := device s; calls := calls s; files := files s |}.
Proof.
  intros H. driver.
  destruct filename as [name|]; cbn [self device calls files] in *.
  - rewrite H. reflexivity.
  - subst config. reflexivity.
Qed.

(** The first device call of a merge commit, and the candidate it leaves
    in the driver. *)
Lemma commit_merge_first_call (s : state D) (l : list string) :
  config_replace (self s) = false ->
  candidate_configuration (self s) = Some l ->
  exists rest,
    calls (snd (commit_config s)) =
    (calls s ++ RunCommands (commit_sequence (config_session (self s)) l)
       :: rest)%list /\
    candidate_configuration (self (snd (commit_config s))) =
    Some (commit_sequence (config_session (self s)) l) /\
    config_session (self (snd (commit_config s))) = config_session (self s).
Proof.
  intros Hr Hc. driver. rewrite Hr, Hc. cbn [self device calls files].
  destruct (run_commands _ (device s)) as [[[]|e] d1];
    cbn [self device calls files].
  - destruct (run_commands _ d1) as [r d2]; cbn [snd self calls].
    exists [RunCommands ["write memory"]].
    rewrite <- app_assoc. auto.
  - exists []. auto.
Qed.

(** C9: [load_merge_candidate] called with neither a file name nor a
    text raises the AttributeError of [None.split], which the handler
    for CommandError does not catch: no MergeConfigException, and no
    call has been made on the device. *)
Theorem load_merge_candidate_without_source (s : state D) (now : string) :
  load_merge_candidate now None None s =
  (Raise (AttributeError "'NoneType' object has no attribute 'split'"),
   {| self := {| config_replace := config_replace (self s);
                 candidate_configuration := None;
                 config_session := config_session (self s) |};
      device := device s; calls := calls s; files := files s |}) /\
  (forall message,
     fst (load_merge_candidate now None None s)
     <> Raise (MergeConfigException message)) /\
  calls (snd (load_merge_candidate now None None s)) = calls s /\
  device (snd (load_merge_candidate now None None s)) = device s.
Proof.
  repeat split; try reflexivity. intros message. discriminate.
Qed.

(** C4, amended: [load_replace_candidate] sets [config_replace] and hands
    the file name and the text, as they came, to the device's
    [load_candidate_config]; the driver strips nothing and its
    [candidate_configuration] stays what it was. *)
Theorem load_replace_candidate_hands_over (s : state D)
    (filename config : option string) :
  self (snd (load_replace_candidate filename config s)) =
  {| config_replace := true;
     candidate_configuration := candidate_configuration (self s);
     config_session := config_session (self s) |} /\
  calls (snd (load_replace_candidate filename config s)) =
  (calls s ++ [LoadCandidateConfig filename config])%list /\
  fst (load_replace_candidate filename config s) =
  fst (load_candidate_config filename config (device s)).
Proof.
  driver. cbn [self device calls files].
  destruct (load_candidate_config filename config (device s)) as [r d1].
  auto.
Qed.

(** C1, amended: with an empty candidate and [config_replace] off,
    [commit_config] checks nothing: it sends the session line, the
    snapshot line and [commit] to the device, then [write memory] when
    that was accepted, and it raises only what the device raised. *)
Theorem commit_config_empty_store (s : state D) :
  candidate_configuration (self s) = Some [] ->
  config_replace (self s) = false ->
  let sequence :=
    ["configure session " ++ Py.percent_s (config_session (self s));
     "copy startup-config flash:rollback-0"; "commit"] in
  (exists rest,
     calls (snd (commit_config s)) =
     (calls s ++ RunCommands sequence :: rest)%list) /\
  (forall d1 d2,
     run_commands sequence (device s) = (Return tt, d1) ->
     run_commands ["write memory"] d1 = (Return tt, d2) ->
     fst (commit_config s) = Return tt /\
     calls (snd (commit_config s)) =
     (calls s ++ [RunCommands sequence; RunCommands ["write memory"]])%list) /\
  (forall e,
     fst (commit_config s) = Raise e ->
     (exists d1, run_commands sequence (device s) = (Raise e, d1)) \/
     (exists d1 d2,
        run_commands sequence (device s) = (Return tt, d1) /\
        run_commands ["write memory"] d1 = (Raise e, d2))).
Proof.
  intros Hc Hr sequence.
  assert (Hs : commit_sequence (config_session (self s)) [] = sequence)
    by reflexivity.
  split; [|split].
  - destruct (commit_merge_first_call s Hr Hc) as (rest & H & _).
    rewrite Hs in H. eauto.
  - intros d1 d2 H1 H2. driver. rewrite Hr, Hc.
    cbn [self device calls files]. rewrite Hs, H1.
    cbn [self device calls files]. rewrite H2. cbn [fst snd calls].
    now rewrite <- app_assoc.
  - intros e. driver. rewrite Hr, Hc. cbn [self device calls files].
    rewrite Hs.
    destruct (run_commands sequence (device s)) as [[[]|e1] d1] eqn:E1;
      cbn [self device calls files].
    + destruct (run_commands ["write memory"] d1) as [[[]|e2] d2] eqn:E2;
        cbn [fst]; intros H; [discriminate|].
      injection H as ->. right. eauto.
    + cbn [fst]. intros H. injection H as ->. left. eauto.
Qed.

(** C3, amended: a merge commit sends the session-open line first, the
    snapshot line second, then the candidate without its first [end]
    line (so without its final [end] when that is the only one), and
    [commit] last. *)
Theorem merge_commit_sequence (s : state D) (l : list string) :
  config_replace (self s) = false ->
  candidate_configuration (self s) = Some l ->
  (exists rest,
     calls (snd (commit_config s)) =
     (calls s ++
      RunCommands
        (("configure session " ++ Py.percent_s (config_session (self s)))%string
           :: "copy startup-config flash:rollback-0"
           :: remove_end l ++ ["commit"]) :: rest)%list) /\
  (forall body, l = (body ++ ["end"])%list -> ~ In "end" body ->
                remove_end l = body) /\
  (~ In "end" l -> remove_end l = l).
Proof.
  intros Hr Hc. split; [|split].
  - destruct (commit_merge_first_call s Hr Hc) as (rest & H & _).
    rewrite commit_sequence_eq in H. eauto.
  - intros body -> Hb. rewrite remove_end_first by assumption.
    apply app_nil_r.
  - apply remove_end_absent.
Qed.

(** The first device call of a merge staging that has a text. *)
Lemma load_merge_first_call (s : state D) (now : string)
    (filename config : option string) (text : string) :
  staged_text (files s) filename config = Some text ->
  exists rest,
    calls (snd (load_merge_candidate now filename config s)) =
    (calls s ++
     RunCommands
       (("configure session " ++ "napalm_commit_" ++ now)%string
          :: remove_end (clean_candidate text) ++ ["end"]) :: rest)%list.
Proof.
  intros H. unfold load_merge_candidate, try_except, bind.
  rewrite (load_and_test_merge s now filename config H).
  driver. fields. answer.
  - exists []. reflexivity.
  - destruct e; fields; try (exists []; reflexivity).
    answer; [answer; [answer|]|]; fields;
      rewrite <- ?app_assoc; simpl; eauto.
Qed.

(** C10: the test sequence of a merge staging and the sequence of a merge
    commit both leave out the first line [end] of the candidate, wherever
    it stands, and only that one: the lines before and after it are sent
    as they are, so a candidate with two or more [end] lines still has
    the later ones in what is sent. *)
Theorem end_marker_removal (s : state D) (now : string)
    (filename config : option string) (text : string)
    (l1 l2 : list string) :
  staged_text (files s) filename config = Some text ->
  clean_candidate text = (l1 ++ "end" :: l2)%list ->
  ~ In "end" l1 ->
  (exists rest,
     calls (snd (load_merge_candidate now filename config s)) =
     (calls s ++
      RunCommands
        (("configure session " ++ "napalm_commit_" ++ now)%string
           :: (l1 ++ l2) ++ ["end"]) :: rest)%list) /\
  (forall s' : state D,
     config_replace (self s') = false ->
     candidate_configuration (self s') = Some (l1 ++ "end" :: l2)%list ->
     exists rest,
       calls (snd (commit_config s')) =
       (calls s' ++
        RunCommands
          (("configure session " ++ Py.percent_s (config_session (self s')))%string
             :: "copy startup-config flash:rollback-0"
             :: (l1 ++ l2) ++ ["commit"]) :: rest)%list) /\
  count_occ string_dec (l1 ++ l2) "end" =
  count_occ string_dec (l1 ++ "end" :: l2) "end" - 1 /\
  (2 <= count_occ string_dec (l1 ++ "end" :: l2) "end" ->
   In "end" (l1 ++ l2)).
Proof.
  intros Ht Hc Hn.
  assert (Hcount : count_occ string_dec (l1 ++ l2) "end" =
                   count_occ string_dec (l1 ++ "end" :: l2) "end" - 1).
  { rewrite !count_occ_app, count_occ_cons_eq by reflexivity. lia. }
  split; [|split; [|split]].
  - destruct (load_merge_first_call s now filename config Ht) as (rest & H).
    rewrite Hc, remove_end_first in H by assumption. eauto.
  - intros s' Hr Hs'.
    destruct (commit_merge_first_call s' Hr Hs') as (rest & H & _).
    rewrite commit_sequence_eq, remove_end_first in H by assumption. eauto.
  - exact Hcount.
  - intros H. apply (count_occ_In string_dec). lia.
Qed.

(** C2, amended: a [discard_config] that returns has cleared
    [config_session] and has left [candidate_configuration] as it was; a
    [commit_config] that returns has cleared neither: [config_session] is
    what it was and [candidate_configuration] is untouched in replace mode
    and holds the sequence that was sent in merge mode. *)
Theorem commit_discard_postcondition (s : state D) :
  (fst (discard_config s) = Return tt ->
   config_session (self (snd (discard_config s))) = None /\
   candidate_configuration (self (snd (discard_config s))) =
   candidate_configuration (self s)) /\
  (fst (commit_config s) = Return tt ->
   config_session (self (snd (commit_config s))) = config_session (self s) /\
   (config_replace (self s) = true ->
    candidate_configuration (self (snd (commit_config s))) =
    candidate_configuration (self s)) /\
   (config_replace (self s) = false ->
    exists l,
      candidate_configuration (self s) = Some l /\
      candidate_configuration (self (snd (commit_config s))) =
      Some (("configure session " ++ Py.percent_s (config_session (self s)))%string
              :: "copy startup-config flash:rollback-0"
              :: remove_end l ++ ["commit"])%list)).
Proof.
  split.
  - driver. destruct (config_session (self s)) as [name|] eqn:Hs; fields.
    + answer; [|discriminate]. answer; [|discriminate].
      answer; [|discriminate]. auto.
    + answer; [|discriminate]. answer; [|discriminate]. auto.
  - driver. destruct (config_replace (self s)) eqn:Hr; fields.
    + answer.
      * answer; [|discriminate]. intros _. repeat split; auto. discriminate.
      * destruct e; discriminate.
    + destruct (candidate_configuration (self s)) as [l|] eqn:Hc; fields;
        [|discriminate].
      answer; [|discriminate]. answer; [|discriminate].
      intros _. repeat split; [discriminate|]. intros _. exists l.
      now rewrite commit_sequence_eq.
Qed.

(** What a merge staging that returns leaves behind. *)
Lemma load_merge_returns (s : state D) (now : string)
    (filename config : option string) :
  fst (load_merge_candidate now filename config s) = Return tt ->
  exists text,
    staged_text (files s) filename config = Some text /\
    config_session (self (snd (load_merge_candidate now filename config s)))
    = Some ("napalm_commit_" ++ now) /\
    files (snd (load_merge_candidate now filename config s)) = files s.
Proof.
  destruct (staged_text (files s) filename config) as [text|] eqn:Ht.
  - intros H. exists text. split; [reflexivity|]. revert H.
    unfold load_merge_candidate, try_except, bind.
    rewrite (load_and_test_merge s now filename config Ht).
    driver. fields. answer.
    + auto.
    + destruct e; fields; try discriminate.
      answer; [answer; [answer|]|]; discriminate.
  - driver. destruct filename as [name|]; fields.
    + rewrite Ht. discriminate.
    + subst config. discriminate.
Qed.

(** Everything a merge staging that has a text sends: its test sequence
    first, and after it no command sequence but the abort of the session
    it has just named; nothing after the test sequence when it returns. *)
Lemma load_merge_calls (s : state D) (now : string)
    (filename config : option string) (text : string) :
  staged_text (files s) filename config = Some text ->
  exists rest,
    calls (snd (load_merge_candidate now filename config s)) =
    (calls s ++
     RunCommands
       (("configure session " ++ "napalm_commit_" ++ now)%string
          :: remove_end (clean_candidate text) ++ ["end"]) :: rest)%list /\
    (forall commands,
       In (RunCommands commands) rest ->
       commands =
       [("configure session " ++ "napalm_commit_" ++ now)%string; "abort"]) /\
    (fst (load_merge_candidate now filename config s) = Return tt ->
     rest = []).
Proof.
  intros H. unfold load_merge_candidate, try_except, bind.
  rewrite (load_and_test_merge s now filename config H).
  driver. fields. answer.
  - exists []. split; [reflexivity|]. split; [intros commands [] | auto].
  - destruct e; fields;
      try (exists []; split; [reflexivity|];
           split; [intros commands [] | auto]).
    answer; [answer; [answer|]|]; fields;
      rewrite <- ?app_assoc; cbn [app];
      (eexists; split; [reflexivity|]); (split; [|discriminate]);
      intros commands Hc; simpl in Hc;
      repeat (destruct Hc as [Hc|Hc]; try discriminate Hc);
      try contradiction; now injection Hc.
Qed.

(** C5, amended: the session name of a merge staging is [napalm_commit_]
    followed by the time stamp of the call, so the second of two stagings
    has another name than the first exactly when the two stamps differ.
    The second staging sends no abort before it opens its session: its
    first device call is its own test sequence.  The only other command
    sequence it can send is the abort of its own session name, after the
    device has rejected that test sequence; so every call it makes leaves
    the first session alone when the two names differ, and an abort that
    names the first session goes out only when the names are the same.
    When the staging returns, the test sequence is all it has sent and
    the recorded session is the second one. *)
Theorem sequential_merge_sessions (s : state D) (now1 now2 : string)
    (filename1 config1 filename2 config2 : option string) (text2 : string) :
  fst (load_merge_candidate now1 filename1 config1 s) = Return tt ->
  staged_text (files s) filename2 config2 = Some text2 ->
  config_session (self (snd (load_merge_candidate now1 filename1 config1 s)))
  = Some ("napalm_commit_" ++ now1) /\
  (exists rest,
     calls (snd (load_merge_candidate now2 filename2 config2
                   (snd (load_merge_candidate now1 filename1 config1 s)))) =
     (calls (snd (load_merge_candidate now1 filename1 config1 s)) ++
      RunCommands
        (("configure session " ++ "napalm_commit_" ++ now2)%string
           :: remove_end (clean_candidate text2) ++ ["end"]) :: rest)%list /\
     (forall commands,
        In (RunCommands commands) rest ->
        commands =
        [("configure session " ++ "napalm_commit_" ++ now2)%string;
         "abort"]) /\
     (fst (load_merge_candidate now2 filename2 config2
             (snd (load_merge_candidate now1 filename1 config1 s)))
      = Return tt -> rest = []) /\
     (now2 <> now1 ->
      ~ In (RunCommands
              [("configure session " ++ "napalm_commit_" ++ now1)%string;
               "abort"])
           (RunCommands
              (("configure session " ++ "napalm_commit_" ++ now2)%string
                 :: remove_end (clean_candidate text2) ++ ["end"])
              :: rest))) /\
  (fst (load_merge_candidate now2 filename2 config2
          (snd (load_merge_candidate now1 filename1 config1 s))) = Return tt ->
   config_session
     (self (snd (load_merge_candidate now2 filename2 config2
                   (snd (load_merge_candidate now1 filename1 config1 s)))))
   = Some ("napalm_commit_" ++ now2)) /\
  ("napalm_commit_" ++ now2 <> "napalm_commit_" ++ now1 <-> now2 <> now1).
Proof.
  intros H1 Ht.
  destruct (load_merge_returns s now1 filename1 config1 H1)
    as (text1 & _ & Hs & Hf).
  split; [exact Hs|]. split; [|split].
  - destruct (load_merge_calls
                (snd (load_merge_candidate now1 filename1 config1 s))
                now2 filename2 config2 (text := text2))
      as (rest & Hc & Ha & Hr); [now rewrite Hf|].
    exists rest. split; [exact Hc|]. split; [exact Ha|].
    split; [exact Hr|].
    intros Hne [Hin|Hin].
    + injection Hin as E _. congruence.
    + apply Ha in Hin. injection Hin as E. congruence.
  - intros H2.
    destruct (load_merge_returns _ now2 filename2 config2 H2)
      as (t & _ & Hs2 & _).
    exact Hs2.
  - split; intros H E; apply H.
    + now subst.
    + simpl in E. now injection E.
Qed.

(** C6, amended: when the device rejects the test sequence of a merge
    staging with a CommandError, the driver sends the abort of the
    session it had just named, and, when the device accepts that abort
    and the read-back that follows, clears the session name and raises
    a MergeConfigException with the device's message; the driver's
    [candidate_configuration] keeps the cleaned lines of the rejected
    candidate and [config_replace] keeps its value. *)
Theorem merge_staging_rejected (s : state D) (now : string)
    (filename config : option string) (text message : string) (d1 : D) :
  staged_text (files s) filename config = Some text ->
  run_commands
    (("configure session " ++ "napalm_commit_" ++ now)%string
       :: remove_end (clean_candidate text) ++ ["end"])%list
    (device s) = (Raise (CommandError message), d1) ->
  (exists rest,
     calls (snd (load_merge_candidate now filename config s)) =
     (calls s ++
      RunCommands
        (("configure session " ++ "napalm_commit_" ++ now)%string
           :: remove_end (clean_candidate text) ++ ["end"])
      :: RunCommands
           [("configure session " ++ "napalm_commit_" ++ now)%string; "abort"]
      :: rest)%list) /\
  candidate_configuration
    (self (snd (load_merge_candidate now filename config s)))
  = Some (clean_candidate text) /\
  config_replace (self (snd (load_merge_candidate now filename config s)))
  = config_replace (self s) /\
  (forall (d2 d3 d4 : D) (running : string),
     run_commands
       [("configure session " ++ "napalm_commit_" ++ now)%string; "abort"] d1
     = (Return tt, d2) ->
     get_config "text" d2 = (Return running, d3) ->
     load_candidate_config None (Some running) d3 = (Return tt, d4) ->
     load_merge_candidate now filename config s =
     (Raise (MergeConfigException message),
      {| self := {| config_replace := config_replace (self s);
                    candidate_configuration := Some (clean_candidate text);
                    config_session := None |};
         device := d4;
         calls :=
           (calls s ++
            [RunCommands
               (("configure session " ++ "napalm_commit_" ++ now)%string
                  :: remove_end (clean_candidate text) ++ ["end"]);
             RunCommands
               [("configure session " ++ "napalm_commit_" ++ now)%string;
                "abort"];
             GetConfig "text";
             LoadCandidateConfig None (Some running)])%list;
         files := files s |})).
Proof.
  intros Ht Hd.
  unfold load_merge_candidate, try_except, bind.
  rewrite (load_and_test_merge s now filename config Ht).
  driver. fields. rewrite Hd. fields.
  repeat split.
  - answer; [answer; [answer|]|]; rewrite <- ?app_assoc; simpl; eauto.
  - answer; [answer; [answer|]|]; reflexivity.
  - answer; [answer; [answer|]|]; reflexivity.
  - intros d2 d3 d4 running H2 H3 H4. rewrite H2. fields.
    rewrite H3. fields. rewrite H4. rewrite <- !app_assoc. reflexivity.
Qed.

(** C7: [discard_config] sends the abort of the session exactly when a
    session name is recorded (and sends no other command sequence); when
    it returns, the session name is cleared and, session or not, the last
    two device calls are the read of the running configuration as text,
    made on the device as it then is, and the load of that very text as
    the device's candidate; it does return whenever the device accepts
    these calls. *)
Theorem discard_config_spec (s : state D) :
  (exists new,
     calls (snd (discard_config s)) = (calls s ++ new)%list /\
     forall commands,
       In (RunCommands commands) new <->
       exists name,
         config_session (self s) = Some name /\
         commands = [("configure session " ++ name)%string; "abort"]) /\
  (fst (discard_config s) = Return tt ->
   config_session (self (snd (discard_config s))) = None /\
   exists (d1 d2 : D) (running : string) (before : list call),
     match config_session (self s) with
     | Some name =>
         run_commands [("configure session " ++ name)%string; "abort"]
           (device s) = (Return tt, d1)
     | None => d1 = device s
     end /\
     get_config "text" d1 = (Return running, d2) /\
     load_candidate_config None (Some running) d2 =
     (Return tt, device (snd (discard_config s))) /\
     calls (snd (discard_config s)) =
     (before ++ [GetConfig "text"; LoadCandidateConfig None (Some running)])%list) /\
  (forall (d1 d2 d3 : D) (running : string),
     match config_session (self s) with
     | Some name =>
         run_commands [("configure session " ++ name)%string; "abort"]
           (device s) = (Return tt, d1)
     | None => d1 = device s
     end ->
     get_config "text" d1 = (Return running, d2) ->
     load_candidate_config None (Some running) d2 = (Return tt, d3) ->
     fst (discard_config s) = Return tt).
Proof.
  split; [|split].
  - driver. destruct (config_session (self s)) as [name|]; fields.
    + answer; [answer; [answer|]|];
        (eexists; split; [rewrite <- ?app_assoc; reflexivity|]);
        intros commands; simpl; split.
      all: try (intros (n & Hn & ->); injection Hn as ->; now left).
      all: intros H; exists name; split; [reflexivity|].
      all: repeat (destruct H as [H|H]; try discriminate; try contradiction).
      all: now injection H.
    + answer; [answer|];
        (eexists; split; [rewrite <- ?app_assoc; reflexivity|]);
        intros commands; simpl; split.
      all: try (intros (n & Hn & _); discriminate).
      all: intros H.
      all: repeat (destruct H as [H|H]; try discriminate; try contradiction).
  - driver. destruct (config_session (self s)) as [name|] eqn:Hs; fields.
    + answer; [|discriminate]. answer; [|discriminate].
      answer; [|discriminate]. intros _. split; [reflexivity|].
      eexists _, _, _,
        (calls s ++
         [RunCommands [("configure session " ++ name)%string; "abort"]])%list.
      rewrite <- !app_assoc. simpl. eauto.
    + answer; [|discriminate]. answer; [|discriminate].
      intros _. split; [exact Hs|].
      eexists (device s), _, _, (calls s).
      rewrite <- !app_assoc. simpl. eauto.
  - intros d1 d2 d3 running. driver.
    destruct (config_session (self s)) as [name|]; fields.
    + intros H1 H2 H3. rewrite H1. fields. rewrite H2. fields.
      now rewrite H3.
    + intros -> H2 H3. rewrite H2. fields. now rewrite H3.
Qed.

(** C8, amended: [rollback] first sends the replace-from-snapshot
    command; when the device accepts each step it then sends
    [write memory], reads the running configuration back as text and
    loads that text as the device's candidate, and it leaves the driver's
    own attributes, [config_replace] among them, as they were. *)
Theorem rollback_spec (s : state D) :
  (exists rest,
     calls (snd (rollback s)) =
     (calls s ++ RunCommands ["configure replace flash:rollback-0"]
        :: rest)%list) /\
  self (snd (rollback s)) = self s /\
  (forall (d1 d2 d3 d4 : D) (running : string),
     run_commands ["configure replace flash:rollback-0"] (device s)
     = (Return tt, d1) ->
     run_commands ["write memory"] d1 = (Return tt, d2) ->
     get_config "text" d2 = (Return running, d3) ->
     load_candidate_config None (Some running) d3 = (Return tt, d4) ->
     rollback s =
     (Return tt,
      {| self := self s; device := d4;
         calls :=
           (calls s ++
            [RunCommands ["configure replace flash:rollback-0"];
             RunCommands ["write memory"];
             GetConfig "text";
             LoadCandidateConfig None (Some running)])%list;
         files := files s |})).
Proof.
  split; [|split].
  - driver. fields.
    answer; [answer; [answer; [answer|]|]|];
      rewrite <- ?app_assoc; simpl; eauto.
  - driver. fields.
    answer; [answer; [answer; [answer|]|]|]; reflexivity.
  - intros d1 d2 d3 d4 running H1 H2 H3 H4. driver. fields.
    rewrite H1. fields. rewrite H2. fields. rewrite H3. fields.
    rewrite H4. rewrite <- !app_assoc. reflexivity.
Qed.

End DriverFacts.

(** ** The driver against the lab switch *)

Section LabRuns.

Import Lab.

(** C1, counterexample: a new driver (empty candidate, no replace
    candidate) commits: the call returns and two command sequences have
    gone to the switch. *)
Lemma commit_config_empty_store_counterexample :
  (candidate_configuration (self start) = Some [] /\
   config_replace (self start) = false /\
   config_session (self start) = None) /\
  fst (commit_config start) = Return tt /\
  calls (snd (commit_config start)) =
  [RunCommands ["configure session None";
                "copy startup-config flash:rollback-0"; "commit"];
   RunCommands ["write memory"]] /\
  ~ ((exists e, fst (commit_config start) = Raise e) /\
     calls (snd (commit_config start)) = calls start).
Proof.
  repeat split. intros [_ H]. discriminate H.
Qed.

Lemma commit_config_empty_store_witness :
  candidate_configuration (self start) = Some [] /\
  config_replace (self start) = false /\
  fst (commit_config start) = Return tt /\
  calls (snd (commit_config start)) =
  (calls start ++
   [RunCommands ["configure session None";
                 "copy startup-config flash:rollback-0"; "commit"];
    RunCommands ["write memory"]])%list.
Proof.
  split; [reflexivity|]. split; [reflexivity|].
  exact (proj1 (proj2 (commit_config_empty_store start eq_refl eq_refl))
           _ _ eq_refl eq_refl).
Defined.

(** C2, counterexample: after a merge staging the switch took, a commit
    that returns leaves the sent sequence in [candidate_configuration]
    and the session name in [config_session]; a discard that returns
    leaves the staged lines in [candidate_configuration]. *)
Lemma commit_discard_postcondition_counterexample :
  fst (commit_config (staged "hostname lab")) = Return tt /\
  candidate_configuration (self (snd (commit_config (staged "hostname lab"))))
  = Some ["configure session napalm_commit_20151104-10111446631200";
          "copy startup-config flash:rollback-0"; "hostname lab"; "commit"] /\
  config_session (self (snd (commit_config (staged "hostname lab"))))
  = Some "napalm_commit_20151104-10111446631200" /\
  fst (discard_config (staged "hostname lab")) = Return tt /\
  candidate_configuration (self (snd (discard_config (staged "hostname lab"))))
  = Some ["hostname lab"] /\
  ~ (candidate_configuration
       (self (snd (commit_config (staged "hostname lab")))) = Some [] /\
     config_session
       (self (snd (commit_config (staged "hostname lab")))) = None) /\
  ~ (candidate_configuration
       (self (snd (discard_config (staged "hostname lab")))) = Some [] /\
     config_session
       (self (snd (discard_config (staged "hostname lab")))) = None).
Proof.
  repeat split; intros [H _]; discriminate H.
Qed.

Lemma commit_discard_postcondition_witness :
  (fst (discard_config (staged "hostname lab")) = Return tt /\
   fst (commit_config (staged "hostname lab")) = Return tt) /\
  config_session (self (snd (discard_config (staged "hostname lab")))) = None /\
  config_session (self (snd (commit_config (staged "hostname lab")))) =
  config_session (self (staged "hostname lab")).
Proof.
  split; [split; reflexivity|]. split.
  - exact (proj1 (proj1 (commit_discard_postcondition
                           (staged "hostname lab")) eq_refl)).
  - exact (proj1 (proj2 (commit_discard_postcondition
                           (staged "hostname lab")) eq_refl)).
Defined.

(** C3, counterexample: the sequence of a merge commit starts with the
    session-open line; the snapshot line is second, inside the session,
    and no sequence of the commit starts with it. *)
Lemma merge_commit_sequence_counterexample :
  calls (snd (commit_config (staged with_end))) =
  (calls (staged with_end) ++
   [RunCommands ["configure session napalm_commit_20151104-10111446631200";
                 "copy startup-config flash:rollback-0";
                 "hostname lab"; "commit"];
    RunCommands ["write memory"]])%list /\
  ~ (exists body rest,
       calls (snd (commit_config (staged with_end))) =
       (calls (staged with_end) ++
        RunCommands ("copy startup-config flash:rollback-0" :: body)
          :: rest)%list).
Proof.
  split; [reflexivity|]. intros (body & rest & H). discriminate H.
Qed.

Lemma merge_commit_sequence_witness :
  config_replace (self (staged with_end)) = false /\
  candidate_configuration (self (staged with_end))
  = Some ["hostname lab"; "end"] /\
  exists rest,
    calls (snd (commit_config (staged with_end))) =
    (calls (staged with_end) ++
     RunCommands ["configure session napalm_commit_20151104-10111446631200";
                  "copy startup-config flash:rollback-0";
                  "hostname lab"; "commit"] :: rest)%list.
Proof.
  split; [reflexivity|]. split; [reflexivity|].
  exact (proj1 (merge_commit_sequence (staged with_end) eq_refl eq_refl)).
Defined.

(** C4, counterexample: a replace staging of a text with a blank line
    sets [config_replace] and leaves [candidate_configuration] empty: the
    cleaned lines are not recorded there. *)
Lemma load_replace_candidate_counterexample :
  clean_candidate with_blank_line = ["hostname lab"; "interface Ethernet1"] /\
  config_replace
    (self (snd (load_replace_candidate None (Some with_blank_line) start)))
  = true /\
  candidate_configuration
    (self (snd (load_replace_candidate None (Some with_blank_line) start)))
  = Some [] /\
  candidate_configuration
    (self (snd (load_replace_candidate None (Some with_blank_line) start)))
  <> Some (clean_candidate with_blank_line).
Proof.
  repeat split. discriminate.
Qed.

(** C5, counterexample: two merge stagings within the same second get
    the same session name, and nothing the driver has sent by the end of
    the second has an [abort] in it. *)
Lemma sequential_merge_sessions_counterexample :
  fst (load_merge_candidate stamp None (Some "hostname b")
         (staged "hostname a")) = Return tt /\
  config_session (self (staged "hostname a"))
  = Some "napalm_commit_20151104-10111446631200" /\
  config_session
    (self (snd (load_merge_candidate stamp None (Some "hostname b")
                  (staged "hostname a"))))
  = config_session (self (staged "hostname a")) /\
  calls (snd (load_merge_candidate stamp None (Some "hostname b")
                (staged "hostname a"))) =
  [RunCommands ["configure session napalm_commit_20151104-10111446631200";
                "hostname a"; "end"];
   RunCommands ["configure session napalm_commit_20151104-10111446631200";
                "hostname b"; "end"]] /\
  ~ (exists commands,
       In (RunCommands commands)
          (calls (snd (load_merge_candidate stamp None (Some "hostname b")
                         (staged "hostname a")))) /\
       In "abort" commands).
Proof.
  repeat split. intros (commands & Hc & Ha). simpl in Hc.
  destruct Hc as [Hc|[Hc|[]]]; injection Hc as <-; simpl in Ha;
    repeat (destruct Ha as [Ha|Ha]; try discriminate Ha); contradiction.
Qed.

Lemma sequential_merge_sessions_witness :
  fst (load_merge_candidate stamp None (Some "hostname a") start)
  = Return tt /\
  staged_text (files start) None (Some "hostname b") = Some "hostname b" /\
  calls (snd (load_merge_candidate later_stamp None (Some "hostname b")
                (staged "hostname a"))) =
  (calls (staged "hostname a") ++
   [RunCommands ["configure session napalm_commit_20151104-10111446631201";
                 "hostname b"; "end"]])%list /\
  config_session
    (self (snd (load_merge_candidate later_stamp None (Some "hostname b")
                  (staged "hostname a"))))
  = Some "napalm_commit_20151104-10111446631201".
Proof.
  split; [reflexivity|]. split; [reflexivity|].
  pose proof (sequential_merge_sessions start stamp later_stamp
                None (Some "hostname a") None (Some "hostname b")
                eq_refl eq_refl) as (_ & (rest & H & _ & Hr & _) & Hs & _).
  split; [|exact (Hs eq_refl)].
  rewrite (Hr eq_refl) in H. exact H.
Defined.

(** C6, counterexample: the switch rejects the test sequence; the abort
    goes out, a MergeConfigException with the switch's message is raised,
    and [candidate_configuration] holds the cleaned lines of the rejected
    candidate, which a commit would send. *)
Lemma merge_staging_rejected_counterexample :
  fst (load_merge_candidate stamp None (Some with_rejected_line) start)
  = Raise (MergeConfigException "Invalid input") /\
  calls (snd (load_merge_candidate stamp None (Some with_rejected_line) start))
  = [RunCommands ["configure session napalm_commit_20151104-10111446631200";
                  "hostname lab"; "bogus"; "end"];
     RunCommands ["configure session napalm_commit_20151104-10111446631200";
                  "abort"];
     GetConfig "text";
     LoadCandidateConfig None (Some "hostname sw1")] /\
  clean_candidate with_rejected_line = ["hostname lab"; "bogus"] /\
  candidate_configuration
    (self (snd (load_merge_candidate stamp None (Some with_rejected_line)
                  start)))
  = Some (clean_candidate with_rejected_line) /\
  calls (snd (commit_config
                (snd (load_merge_candidate stamp None
                        (Some with_rejected_line) start)))) =
  (calls (snd (load_merge_candidate stamp None (Some with_rejected_line)
                 start)) ++
   [RunCommands ["configure session None";
                 "copy startup-config flash:rollback-0";
                 "hostname lab"; "bogus"; "commit"]])%list /\
  ~ (candidate_configuration
       (self (snd (load_merge_candidate stamp None (Some with_rejected_line)
                     start)))
     <> Some (clean_candidate with_rejected_line)).
Proof.
  repeat split. intros H. apply H. reflexivity.
Qed.

Lemma merge_staging_rejected_witness :
  staged_text (files start) None (Some with_rejected_line)
  = Some with_rejected_line /\
  run_commands
    ["configure session napalm_commit_20151104-10111446631200";
     "hostname lab"; "bogus"; "end"] (device start)
  = (Raise (CommandError "Invalid input"), "hostname sw1") /\
  fst (load_merge_candidate stamp None (Some with_rejected_line) start)
  = Raise (MergeConfigException "Invalid input") /\
  candidate_configuration
    (self (snd (load_merge_candidate stamp None (Some with_rejected_line)
                  start)))
  = Some ["hostname lab"; "bogus"].
Proof.
  split; [reflexivity|]. split; [reflexivity|].
  pose proof (merge_staging_rejected start stamp None
                (Some with_rejected_line) (text := with_rejected_line)
                (message := "Invalid input") (d1 := "hostname sw1")
                eq_refl eq_refl) as (_ & Hc & _ & H).
  split.
  - exact (f_equal fst (H "hostname sw1" "hostname sw1" "hostname sw1"
                          "hostname sw1" eq_refl eq_refl eq_refl)).
  - exact Hc.
Defined.

(** The switch takes every step of a discard after a merge staging. *)
Lemma discard_config_witness :
  fst (discard_config (staged "hostname lab")) = Return tt /\
  config_session (self (snd (discard_config (staged "hostname lab")))) = None.
Proof.
  pose proof (discard_config_spec (staged "hostname lab")) as (_ & H & Hr).
  pose proof (Hr "hostname sw1" "hostname sw1" "hostname sw1" "hostname sw1"
                eq_refl eq_refl eq_refl) as R.
  split; [exact R | exact (proj1 (H R))].
Defined.

(** C8, counterexample: a rollback after a merge commit returns with
    [config_replace] still off. *)
Lemma rollback_counterexample :
  fst (rollback (snd (commit_config (staged "hostname lab")))) = Return tt /\
  config_replace
    (self (snd (rollback (snd (commit_config (staged "hostname lab"))))))
  = false /\
  config_replace
    (self (snd (rollback (snd (commit_config (staged "hostname lab"))))))
  <> true.
Proof.
  repeat split. discriminate.
Qed.

Lemma rollback_witness :
  calls (snd (rollback start)) =
  [RunCommands ["configure replace flash:rollback-0"];
   RunCommands ["write memory"];
   GetConfig "text";
   LoadCandidateConfig None (Some "hostname sw1")].
Proof.
  exact (f_equal (fun r => calls (snd r))
           (proj2 (proj2 (rollback_spec start))
              "hostname sw1" "hostname sw1" "hostname sw1" "hostname sw1"
              "hostname sw1" eq_refl eq_refl eq_refl eq_refl)).
Defined.

(** A candidate with two [end] lines: the second one is sent, by the
    staging and by the commit. *)
Lemma end_marker_removal_witness :
  (staged_text (files start) None (Some with_two_ends) = Some with_two_ends /\
   clean_candidate with_two_ends =
   (["interface Ethernet1"] ++ "end" :: ["interface Ethernet2"; "end"])%list /\
   ~ In "end" ["interface Ethernet1"]) /\
  (exists rest,
     calls (snd (load_merge_candidate stamp None (Some with_two_ends) start)) =
     (calls start ++
      RunCommands ["configure session napalm_commit_20151104-10111446631200";
                   "interface Ethernet1"; "interface Ethernet2"; "end"; "end"]
        :: rest)%list) /\
  (exists rest,
     calls (snd (commit_config (staged with_two_ends))) =
     (calls (staged with_two_ends) ++
      RunCommands ["configure session napalm_commit_20151104-10111446631200";
                   "copy startup-config flash:rollback-0";
                   "interface Ethernet1"; "interface Ethernet2"; "end";
                   "commit"] :: rest)%list).
Proof.
  assert (Hn : ~ In "end" ["interface Ethernet1"]).
  { intros [H|[]]. discriminate H. }
  split; [repeat split; exact Hn|].
  pose proof (end_marker_removal start stamp None (Some with_two_ends)
                (text := with_two_ends) ["interface Ethernet1"]
                ["interface Ethernet2"; "end"] eq_refl eq_refl Hn)
    as (H1 & H2 & _).
  split; [exact H1|].
  exact (H2 (staged with_two_ends) eq_refl eq_refl).
Defined.

End LabRuns.

(** ** The cleaning of the candidate text *)

Section CleaningFacts.

Lemma rstrip_empty (s : string) :
  Py.rstrip s = "" <-> forallb Py.isspace (list_ascii_of_string s) = true.
Proof.
  induction s as [|c s IH]; simpl.
  - tauto.
  - destruct (Py.rstrip s) as [|c' r].
    + destruct IH as [IH _]. rewrite (IH eq_refl), andb_true_r.
      destruct (Py.isspace c); split; congruence.
    + destruct (forallb Py.isspace (list_ascii_of_string s)).
      * destruct IH as [_ IH]. discriminate (IH eq_refl).
      * rewrite andb_false_r. split; discriminate.
Qed.

Lemma lstrip_spaces (s : string) :
  forallb Py.isspace (list_ascii_of_string (Py.lstrip s)) =
  forallb Py.isspace (list_ascii_of_string s).
Proof.
  induction s as [|c s IH]; simpl; [reflexivity|].
  destruct (Py.isspace c) eqn:Hc; simpl; [exact IH|].
  now rewrite Hc.
Qed.

Lemma strip_empty (s : string) :
  String.eqb (Py.strip s) "" =
  forallb Py.isspace (list_ascii_of_string s).
Proof.
  unfold Py.strip. rewrite <- lstrip_spaces.
  destruct (String.eqb_spec (Py.rstrip (Py.lstrip s)) "") as [H|H].
  - symmetry. now apply rstrip_empty.
  - destruct (forallb Py.isspace (list_ascii_of_string (Py.lstrip s)))
      eqn:E; [|reflexivity].
    apply rstrip_empty in E. contradiction.
Qed.

Lemma strip_head (c : ascii) (s : string) :
  Py.isspace c = false -> Py.strip (String c s) <> "".
Proof.
  intros H. unfold Py.strip. simpl Py.lstrip. rewrite H. simpl.
  destruct (Py.rstrip s); rewrite ?H; discriminate.
Qed.

Lemma split_line (a rest : string) :
  ~ In "010"%char (list_ascii_of_string a) ->
  Py.split "010" (a ++ String "010" rest) = a :: Py.split "010" rest.
Proof.
  induction a as [|c a IH]; simpl; intros H; [reflexivity|].
  destruct (Ascii.eqb_spec c "010") as [->|_]; [tauto|].
  rewrite IH by tauto. reflexivity.
Qed.

Lemma split_single (a : string) :
  ~ In "010"%char (list_ascii_of_string a) -> Py.split "010" a = [a].
Proof.
  induction a as [|c a IH]; simpl; intros H; [reflexivity|].
  destruct (Ascii.eqb_spec c "010") as [->|_]; [tauto|].
  rewrite IH by tauto. reflexivity.
Qed.

Lemma split_concat (lines : list string) :
  Forall (fun line => ~ In "010"%char (list_ascii_of_string line)) lines ->
  lines <> [] ->
  Py.split "010" (String.concat (String "010" "") lines) = lines.
Proof.
  induction 1 as [|x l Hx Hl IH]; intros Hne; [congruence|].
  destruct l as [|y l].
  - simpl. now apply split_single.
  - change (String.concat (String "010" "") (x :: y :: l))
      with (x ++ String "010" (String.concat (String "010" "") (y :: l))).
    rewrite split_line by assumption. rewrite IH by discriminate.
    reflexivity.
Qed.

Lemma In_remove (x y : string) (l : list string) :
  In x (Py.remove y l) -> In x l.
Proof.
  induction l as [|z l IH]; simpl; [tauto|].
  destruct (String.eqb z y); simpl; tauto.
Qed.

Lemma Forall_remove_end (P : string -> Prop) (l : list string) :
  Forall P l -> Forall P (remove_end l).
Proof.
  unfold remove_end. destruct (Py.contains "end" l); [|trivial].
  rewrite !Forall_forall. intros H x Hx. eapply H, In_remove, Hx.
Qed.

Lemma clean_candidate_not_blank (text : string) :
  Forall (fun line => Py.strip line <> "") (clean_candidate text).
Proof.
  apply Forall_forall. intros line H. unfold clean_candidate in H.
  apply filter_In in H. destruct H as [_ H].
  apply negb_true_iff, String.eqb_neq in H. exact H.
Qed.

(** X1: the cleaning loop keeps, in their order, the lines of the text
    that have a character other than white space, and drops the lines
    made of spaces, tabs, carriage returns, form feeds and vertical tabs
    only (the empty line among them). *)
Theorem clean_candidate_keeps (text : string) :
  clean_candidate text =
  filter (fun line => negb (forallb Py.isspace (list_ascii_of_string line)))
         (Py.split "010" text).
Proof.
  unfold clean_candidate. apply filter_ext. intros line.
  now rewrite strip_empty.
Qed.

(** X2: a text written as lines joined by line feeds, none of them blank
    and none with a line feed inside, is cleaned to exactly these lines. *)
Theorem clean_candidate_of_lines (lines : list string) :
  Forall (fun line => ~ In "010"%char (list_ascii_of_string line) /\
                      Py.strip line <> "") lines ->
  clean_candidate (String.concat (String "010" "") lines) = lines.
Proof.
  intros H. destruct lines as [|x l]; [reflexivity|].
  unfold clean_candidate. rewrite split_concat.
  - apply forallb_filter_id, forallb_forall. intros line Hl.
    rewrite Forall_forall in H. destruct (H line Hl) as [_ Hs].
    now apply negb_true_iff, String.eqb_neq.
  - eapply Forall_impl; [|exact H]. simpl. tauto.
  - discriminate.
Qed.

End CleaningFacts.

(** ** Staging and commit, path by path *)

Section PathFacts.

Context {D : Type} {eos : EOS D}.

Lemma remove_end_app_other (x : string) (l : list string) :
  x <> "end" -> remove_end (l ++ [x]) = (remove_end l ++ [x])%list.
Proof.
  intros Hx. destruct (Py.contains "end" l) eqn:E.
  - apply contains_In, In_first in E. destruct E as (l1 & l2 & -> & Hn).
    rewrite <- app_assoc. simpl.
    rewrite !remove_end_first by assumption. now rewrite app_assoc.
  - apply contains_not_In in E.
    rewrite (remove_end_absent l E). apply remove_end_absent.
    intros H. apply in_app_or in H. simpl in H.
    destruct H as [H|[H|[]]]; [tauto | congruence].
Qed.

(** The attributes after a merge commit, accepted or not. *)
Lemma commit_merge_self (s : state D) (l : list string) :
  config_replace (self s) = false ->
  candidate_configuration (self s) = Some l ->
  self (snd (commit_config s)) =
  {| config_replace := false;
     candidate_configuration :=
       Some (commit_sequence (config_session (self s)) l);
     config_session := config_session (self s) |}.
Proof.
  intros Hr Hc. driver. rewrite Hr, Hc. fields.
  answer; [answer|]; now rewrite Hr.
Qed.

(** The attributes after a merge staging that returned. *)
Lemma load_merge_self (s : state D) (now : string)
    (filename config : option string) (text : string) :
  staged_text (files s) filename config = Some text ->
  fst (load_merge_candidate now filename config s) = Return tt ->
  self (snd (load_merge_candidate now filename config s)) =
  {| config_replace := false;
     candidate_configuration := Some (clean_candidate text);
     config_session := Some ("napalm_commit_" ++ now) |}.
Proof.
  intros Ht. unfold load_merge_candidate, try_except, bind.
  rewrite (load_and_test_merge s now filename config Ht).
  driver. fields. answer; [reflexivity|].
  destruct e; fields; try discriminate.
  answer; [answer; [answer|]|]; discriminate.
Qed.

(** The attributes after a discard that returned. *)
Lemma discard_self (s : state D) :
  fst (discard_config s) = Return tt ->
  self (snd (discard_config s)) =
  {| config_replace := config_replace (self s);
     candidate_configuration := candidate_configuration (self s);
     config_session := None |}.
Proof.
  destruct s as [[r c [name|]] d cl f]; driver; fields.
  - answer; [|discriminate]. answer; [|discriminate].
    answer; [|discriminate]. reflexivity.
  - answer; [|discriminate]. answer; [|discriminate]. reflexivity.
Qed.

(** X3: no command of the test sequence of a merge staging is blank, and
    none of the sequence of the merge commit of the staged candidate is:
    the wrapper lines are not blank and the cleaning has removed the
    blank lines of the text. *)
Theorem no_blank_command (s : state D) (now : string)
    (filename config : option string) (text : string) :
  staged_text (files s) filename config = Some text ->
  (exists commands rest,
     calls (snd (load_merge_candidate now filename config s)) =
     (calls s ++ RunCommands commands :: rest)%list /\
     Forall (fun c => Py.strip c <> "") commands) /\
  (forall s' : state D,
     config_replace (self s') = false ->
     candidate_configuration (self s') = Some (clean_candidate text) ->
     exists commands rest,
       calls (snd (commit_config s')) =
       (calls s' ++ RunCommands commands :: rest)%list /\
       Forall (fun c => Py.strip c <> "") commands).
Proof.
  intros Ht.
  assert (Hb : Forall (fun c => Py.strip c <> "")
                 (remove_end (clean_candidate text)))
    by apply Forall_remove_end, clean_candidate_not_blank.
  split.
  - destruct (load_merge_first_call s now filename config Ht) as (rest & H).
    eexists _, rest. split; [exact H|].
    constructor; [now apply strip_head|].
    apply Forall_app. split; [exact Hb|].
    constructor; [now apply strip_head | constructor].
  - intros s' Hr Hc.
    destruct (commit_merge_first_call s' Hr Hc) as (rest & H & _).
    rewrite commit_sequence_eq in H.
    eexists _, rest. split; [exact H|].
    constructor; [now apply strip_head|].
    constructor; [now apply strip_head|].
    apply Forall_app. split; [exact Hb|].
    constructor; [now apply strip_head | constructor].
Qed.

(** X4: a merge staging from a file that can be read does what the
    staging of the file's content given inline does, whatever is passed
    as [config]: the file name has precedence. *)
Theorem staging_from_file (s : state D) (now name : string)
    (config : option string) (text : string) :
  files s name = Some text ->
  load_merge_candidate now (Some name) config s =
  load_merge_candidate now None (Some text) s.
Proof.
  intros H. unfold load_merge_candidate, try_except, bind.
  rewrite (load_and_test_merge s now (Some name) config (text := text))
    by exact H.
  rewrite (load_and_test_merge s now None (Some text) (text := text))
    by reflexivity.
  reflexivity.
Qed.

(** X5: a merge staging from a file that cannot be read raises the
    IOError of [open]: the handler does not catch it, nothing has been
    assigned and nothing has been sent. *)
Theorem staging_unreadable_file (s : state D) (now name : string)
    (config : option string) :
  files s name = None ->
  exists message,
    load_merge_candidate now (Some name) config s = (Raise (IOError message), s).
Proof.
  intros H. driver. rewrite H. eexists. reflexivity.
Qed.

(** X6: a merge staging whose test sequence the device accepts returns
    after that one call, with the mode set to merge, the cleaned lines as
    the candidate (whatever was staged before is gone) and the session
    of this call recorded. *)
Theorem merge_staging_accepted (s : state D) (now : string)
    (filename config : option string) (text : string) (d1 : D) :
  staged_text (files s) filename config = Some text ->
  run_commands
    (("configure session " ++ "napalm_commit_" ++ now)%string
       :: remove_end (clean_candidate text) ++ ["end"])%list
    (device s) = (Return tt, d1) ->
  load_merge_candidate now filename config s =
  (Return tt,
   {| self := {| config_replace := false;
                 candidate_configuration := Some (clean_candidate text);
                 config_session := Some ("napalm_commit_" ++ now) |};
      device := d1;
      calls :=
        (calls s ++
         [RunCommands
            (("configure session " ++ "napalm_commit_" ++ now)%string
               :: remove_end (clean_candidate text) ++ ["end"])])%list;
      files := files s |}).
Proof.
  intros Ht Hd. unfold load_merge_candidate, try_except, bind.
  rewrite (load_and_test_merge s now filename config Ht).
  driver. fields. rewrite Hd. reflexivity.
Qed.

(** X7: when the test sequence of a merge staging fails with anything
    but a CommandError, the error goes to the caller as it is and no
    cleanup is made: no abort is sent, the session name stays recorded,
    the cleaned lines stay in the candidate and the mode is not changed. *)
Theorem merge_staging_other_failure (s : state D) (now : string)
    (filename config : option string) (text : string) (e : exn) (d1 : D) :
  staged_text (files s) filename config = Some text ->
  run_commands
    (("configure session " ++ "napalm_commit_" ++ now)%string
       :: remove_end (clean_candidate text) ++ ["end"])%list
    (device s) = (Raise e, d1) ->
  (forall message, e <> CommandError message) ->
  load_merge_candidate now filename config s =
  (Raise e,
   {| self := {| config_replace := config_replace (self s);
                 candidate_configuration := Some (clean_candidate text);
                 config_session := Some ("napalm_commit_" ++ now) |};
      device := d1;
      calls :=
        (calls s ++
         [RunCommands
            (("configure session " ++ "napalm_commit_" ++ now)%string
               :: remove_end (clean_candidate text) ++ ["end"])])%list;
      files := files s |}).
Proof.
  intros Ht Hd He. unfold load_merge_candidate, try_except, bind.
  rewrite (load_and_test_merge s now filename config Ht).
  driver. fields. rewrite Hd.
  destruct e; try reflexivity. now destruct (He message).
Qed.

(** X8: when the device rejects the test sequence and then fails the
    abort as well, the caller gets the error of the abort, not a
    MergeConfigException, and the session name is still recorded: the
    read-back is not made. *)
Theorem merge_staging_abort_fails (s : state D) (now : string)
    (filename config : option string) (text message : string)
    (e : exn) (d1 d2 : D) :
  staged_text (files s) filename config = Some text ->
  run_commands
    (("configure session " ++ "napalm_commit_" ++ now)%string
       :: remove_end (clean_candidate text) ++ ["end"])%list
    (device s) = (Raise (CommandError message), d1) ->
  run_commands
    [("configure session " ++ "napalm_commit_" ++ now)%string; "abort"] d1
  = (Raise e, d2) ->
  load_merge_candidate now filename config s =
  (Raise e,
   {| self := {| config_replace := config_replace (self s);
                 candidate_configuration := Some (clean_candidate text);
                 config_session := Some ("napalm_commit_" ++ now) |};
      device := d2;
      calls :=
        (calls s ++
         [RunCommands
            (("configure session " ++ "napalm_commit_" ++ now)%string
               :: remove_end (clean_candidate text) ++ ["end"]);
          RunCommands
            [("configure session " ++ "napalm_commit_" ++ now)%string;
             "abort"]])%list;
      files := files s |}).
Proof.
  intros Ht Hd Ha. unfold load_merge_candidate, try_except, bind.
  rewrite (load_and_test_merge s now filename config Ht).
  driver. fields. rewrite Hd. fields. rewrite Ha.
  rewrite <- app_assoc. reflexivity.
Qed.

(** X9: in replace mode, when the device rejects the replacement with a
    ConfigReplaceError, [commit_config] raises a ReplaceConfigException
    with the same message, after that single call: [write memory] is not
    sent and the driver's attributes are untouched. *)
Theorem replace_commit_rejected (s : state D) (message : string) (d1 : D) :
  config_replace (self s) = true ->
  replace_config (device s) = (Raise (ConfigReplaceError message), d1) ->
  commit_config s =
  (Raise (ReplaceConfigException message),
   {| self := self s; device := d1;
      calls := (calls s ++ [ReplaceConfig])%list;
      files := files s |}).
Proof.
  intros Hr Hd. driver. rewrite Hr. fields. rewrite Hd. reflexivity.
Qed.

(** X10: in replace mode, once the device has accepted the replacement,
    [commit_config] sends [write memory] and its outcome is the outcome
    of that call: a failure to persist is raised as it is, with the
    replacement already made. *)
Theorem replace_commit_persists (s : state D) (d1 : D) :
  config_replace (self s) = true ->
  replace_config (device s) = (Return tt, d1) ->
  commit_config s =
  (fst (run_commands ["write memory"] d1),
   {| self := self s;
      device := snd (run_commands ["write memory"] d1);
      calls := (calls s ++ [ReplaceConfig; RunCommands ["write memory"]])%list;
      files := files s |}).
Proof.
  intros Hr Hd. driver. rewrite Hr. fields. rewrite Hd. fields.
  destruct (run_commands ["write memory"] d1) as [[[]|e] d2];
    rewrite <- app_assoc; reflexivity.
Qed.

(** X11: in merge mode, when the device fails the commit sequence, the
    error reaches the caller as it is (a CommandError is not wrapped),
    [write memory] is not sent, and [candidate_configuration] is left
    holding the sequence that was sent, wrapper lines included. *)
Theorem merge_commit_rejected (s : state D) (l : list string)
    (e : exn) (d1 : D) :
  config_replace (self s) = false ->
  candidate_configuration (self s) = Some l ->
  run_commands
    (("configure session " ++ Py.percent_s (config_session (self s)))%string
       :: "copy startup-config flash:rollback-0"
       :: remove_end l ++ ["commit"])%list
    (device s) = (Raise e, d1) ->
  commit_config s =
  (Raise e,
   {| self :=
        {| config_replace := false;
           candidate_configuration :=
             Some (("configure session "
                      ++ Py.percent_s (config_session (self s)))%string
                     :: "copy startup-config flash:rollback-0"
                     :: remove_end l ++ ["commit"])%list;
           config_session := config_session (self s) |};
      device := d1;
      calls :=
        (calls s ++
         [RunCommands
            (("configure session "
                ++ Py.percent_s (config_session (self s)))%string
               :: "copy startup-config flash:rollback-0"
               :: remove_end l ++ ["commit"])])%list;
      files := files s |}).
Proof.
  intros Hr Hc Hd. rewrite <- commit_sequence_eq in *.
  driver. rewrite Hr, Hc. fields. rewrite Hd, Hr. reflexivity.
Qed.

(** X12: a merge commit is not repeatable: a second [commit_config]
    wraps what the first one left in the candidate, so it sends the two
    wrapper lines twice, the candidate with one more [end] line removed,
    and [commit] twice. *)
Theorem merge_commit_twice (s : state D) (l : list string) :
  config_replace (self s) = false ->
  candidate_configuration (self s) = Some l ->
  exists rest,
    calls (snd (commit_config (snd (commit_config s)))) =
    (calls (snd (commit_config s)) ++
     RunCommands
       (("configure session " ++ Py.percent_s (config_session (self s)))%string
          :: "copy startup-config flash:rollback-0"
          :: ("configure session "
                ++ Py.percent_s (config_session (self s)))%string
          :: "copy startup-config flash:rollback-0"
          :: remove_end (remove_end l) ++ ["commit"; "commit"])
       :: rest)%list.
Proof.
  intros Hr Hc. pose proof (commit_merge_self s Hr Hc) as Hs.
  destruct (commit_merge_first_call (snd (commit_config s))
              (l := commit_sequence (config_session (self s)) l))
    as (rest & H & _); try (rewrite Hs; reflexivity).
  exists rest. rewrite H, Hs. cbn [config_session].
  rewrite !commit_sequence_eq.
  rewrite remove_end_cons by apply session_open_not_end.
  rewrite remove_end_cons by discriminate.
  rewrite remove_end_app_other by discriminate.
  rewrite <- !app_comm_cons, <- app_assoc. reflexivity.
Qed.

(** X13: after a merge staging called with neither a file nor a text, a
    driver in merge mode cannot commit: [commit_config] raises the
    AttributeError of [None.insert] and makes no call on the device. *)
Theorem merge_commit_without_candidate (s : state D) (now : string) :
  config_replace (self s) = false ->
  commit_config (snd (load_merge_candidate now None None s)) =
  (Raise (AttributeError "'NoneType' object has no attribute 'insert'"),
   snd (load_merge_candidate now None None s)).
Proof.
  intros Hr. driver. fields. rewrite Hr. reflexivity.
Qed.

(** X14: a discard does not unstage the merge candidate in the driver:
    after a merge staging and a discard that both returned,
    [commit_config] sends the lines of the discarded candidate, in a
    session named [None]. *)
Theorem commit_after_discard (s : state D) (now : string)
    (filename config : option string) (text : string) :
  staged_text (files s) filename config = Some text ->
  fst (load_merge_candidate now filename config s) = Return tt ->
  fst (discard_config (snd (load_merge_candidate now filename config s)))
  = Return tt ->
  exists rest,
    calls (snd (commit_config
                  (snd (discard_config
                          (snd (load_merge_candidate now filename config s))))))
    =
    (calls (snd (discard_config
                   (snd (load_merge_candidate now filename config s)))) ++
     RunCommands
       ("configure session None"
          :: "copy startup-config flash:rollback-0"
          :: remove_end (clean_candidate text) ++ ["commit"]) :: rest)%list.
Proof.
  intros Ht H1 H2.
  pose proof (load_merge_self s now filename config Ht H1) as Hs1.
  pose proof (discard_self _ H2) as Hs2. rewrite Hs1 in Hs2. fields.
  destruct (commit_merge_first_call
              (snd (discard_config
                      (snd (load_merge_candidate now filename config s))))
              (l := clean_candidate text))
    as (rest & H & _); try (rewrite Hs2; reflexivity).
  exists rest. rewrite H, Hs2. cbn [config_session].
  now rewrite commit_sequence_eq.
Qed.

(** X15: what [compare_config] asks after each operation: after a merge
    staging that returned, the diffs of the session of that staging;
    after a discard that returned on a driver in merge mode, the diffs
    of a session named [None]; after a replace staging, the device's own
    comparison; after a rollback, what it would have asked before. *)
Theorem compare_config_after (s : state D) (now : string)
    (filename config : option string) :
  (fst (load_merge_candidate now filename config s) = Return tt ->
   compare_config_query
     (self (snd (load_merge_candidate now filename config s))) =
   RunCommandsText
     [("show session-config named " ++ ("napalm_commit_" ++ now)
         ++ " diffs")%string]) /\
  (config_replace (self s) = false ->
   fst (discard_config s) = Return tt ->
   compare_config_query (self (snd (discard_config s))) =
   RunCommandsText ["show session-config named None diffs"]) /\
  compare_config_query
    (self (snd (load_replace_candidate filename config s))) = CompareConfig /\
  compare_config_query (self (snd (rollback s))) =
  compare_config_query (self s).
Proof.
  repeat split.
  - intros H.
    destruct (load_merge_returns s now filename config H) as (text & Ht & _).
    now rewrite (load_merge_self s now filename config Ht H).
  - intros Hr H. rewrite (discard_self s H).
    unfold compare_config_query. cbn [config_replace config_session].
    now rewrite Hr.
  - driver. fields. now answer.
  - driver. fields.
    answer; [answer; [answer; [answer|]|]|]; reflexivity.
Qed.

End PathFacts.

(** ** The table of link-layer neighbours *)

Section LldpFacts.

Import Lldp.

Local Abbreviation got q d :=
  (match lookup q d with Some l => l | None => [] end).

Local Abbreviation collected q ns :=
  (flat_map (fun n => if on_port q n
                      then match neighbor_of n with
                           | Value x => [x]
                           | KeyError _ => []
                           end
                      else []) ns).

Local Abbreviation keys :=
  ["port"; "neighborDevice"; "neighborPort"; "ttl"].

Lemma json_eqb_spec (a b : json) : reflect (a = b) (json_eqb a b).
Proof.
  destruct a as [s|n], b as [t|m]; simpl; try (constructor; discriminate).
  - destruct (String.eqb_spec s t); constructor; congruence.
  - destruct (Nat.eqb_spec n m); constructor; congruence.
Qed.

Lemma getitem_error (key k : string) (n : object) :
  getitem key n = KeyError k -> k = key.
Proof.
  induction n as [|[k' v] n IH]; simpl.
  - congruence.
  - destruct (String.eqb k' key); [discriminate | exact IH].
Qed.

Lemma lookup_has_key (q : json) (d : table) :
  lookup q d = if has_key q d then Some (got q d) else None.
Proof.
  induction d as [|[k l] d IH]; simpl; [reflexivity|].
  destruct (json_eqb k q); simpl; [reflexivity | exact IH].
Qed.

Lemma has_key_new (p q : json) (d : table) :
  has_key q (d ++ [(p, [])])%list = has_key q d || json_eqb p q.
Proof.
  induction d as [|[k l] d IH]; simpl.
  - apply orb_false_r.
  - now rewrite IH, orb_assoc.
Qed.

Lemma got_new (p q : json) (d : table) :
  got q (d ++ [(p, [])])%list = got q d.
Proof.
  induction d as [|[k l] d IH]; simpl.
  - now destruct (json_eqb p q).
  - now destruct (json_eqb k q).
Qed.

Lemma has_key_append_at (p q : json) (x : neighbor) (d : table) :
  has_key q (append_at p x d) = has_key q d.
Proof.
  induction d as [|[k l] d IH]; simpl; [reflexivity|].
  destruct (json_eqb k p); simpl; [reflexivity | now rewrite IH].
Qed.

Lemma got_append_at (p q : json) (x : neighbor) (d : table) :
  got q (append_at p x d) =
  (got q d ++ if json_eqb p q && has_key p d then [x] else [])%list.
Proof.
  induction d as [|[k l] d IH]; simpl.
  - now rewrite andb_false_r.
  - destruct (json_eqb_spec k p) as [->|Hkp]; simpl.
    + rewrite andb_true_r.
      destruct (json_eqb p q); [reflexivity | now rewrite app_nil_r].
    + destruct (json_eqb_spec k q) as [->|Hkq]; [|exact IH].
      destruct (json_eqb_spec p q) as [->|_]; [contradiction|].
      now rewrite app_nil_r.
Qed.

(** One turn of the loop, read through [has_key] and [lookup]. *)
Lemma step_lookup (d d1 : table) (n : object) :
  step d n = Value d1 ->
  exists p x,
    getitem "port" n = Value p /\ neighbor_of n = Value x /\
    forall q,
      has_key q d1 = has_key q d || json_eqb p q /\
      got q d1 = (got q d ++ if json_eqb p q then [x] else [])%list.
Proof.
  unfold step. destruct (getitem "port" n) as [p|k]; [|discriminate].
  destruct (neighbor_of n) as [x|k]; [|discriminate].
  intros H. injection H as <-. exists p, x. repeat split.
  - rewrite has_key_append_at.
    destruct (has_key p d) eqn:Hp; [|apply has_key_new].
    destruct (json_eqb_spec p q) as [<-|_];
      [now rewrite Hp | now rewrite orb_false_r].
  - rewrite got_append_at.
    destruct (has_key p d) eqn:Hp.
    + now rewrite Hp, andb_true_r.
    + rewrite has_key_new, got_new.
      destruct (json_eqb_spec p p) as [_|F]; [|contradiction].
      now rewrite orb_true_r, andb_true_r.
Qed.

Lemma loop_lookup (ns : list object) (d d' : table) :
  loop d ns = Value d' ->
  forall q,
    lookup q d' =
    if has_key q d || existsb (on_port q) ns
    then Some (got q d ++ collected q ns)%list
    else None.
Proof.
  revert d. induction ns as [|n ns IH]; intros d H q;
    cbn [loop existsb flat_map] in *.
  - injection H as <-. rewrite orb_false_r, lookup_has_key.
    destruct (has_key q d); [now rewrite app_nil_r | reflexivity].
  - destruct (step d n) as [d1|k] eqn:Hs; [|discriminate].
    destruct (step_lookup d n Hs) as (p & x & Hp & Hx & Hq).
    destruct (Hq q) as [Hk Hg].
    assert (Ho : on_port q n = json_eqb p q)
      by (unfold on_port; now rewrite Hp).
    rewrite (IH d1 H q), Hk, Hg, Ho, Hx, orb_assoc, <- app_assoc.
    reflexivity.
Qed.

Lemma loop_complete (ns : list object) (d d' : table) :
  loop d ns = Value d' ->
  Forall (fun n => exists x, neighbor_of n = Value x) ns.
Proof.
  revert d. induction ns as [|n ns IH]; simpl; intros d H; [constructor|].
  destruct (step d n) as [d1|k] eqn:Hs; [|discriminate].
  destruct (step_lookup d n Hs) as (p & x & _ & Hx & _).
  constructor; [eauto | eapply IH, H].
Qed.

Lemma collected_map (q : json) (ns : list object) :
  Forall (fun n => exists x, neighbor_of n = Value x) ns ->
  map Value (collected q ns) = map neighbor_of (filter (on_port q) ns).
Proof.
  induction 1 as [|n ns [x Hx] _ IH]; simpl; [reflexivity|].
  destruct (on_port q n); simpl; [|exact IH].
  rewrite Hx. simpl. now rewrite IH.
Qed.

(** X16: when [get_lldp_neighbors] returns, the table has a port as a
    key exactly when some entry of the answer is on that port, and the
    list under a port is the entries of that port, each reshaped to
    [hostname], [port], [ttl], in the order of the answer. *)
Theorem get_lldp_neighbors_lookup (ns : list object) (d : table) :
  get_lldp_neighbors ns = Value d ->
  forall q,
    (lookup q d = None <-> filter (on_port q) ns = []) /\
    (forall l, lookup q d = Some l ->
               map Value l = map neighbor_of (filter (on_port q) ns)).
Proof.
  intros H q. unfold get_lldp_neighbors in H.
  rewrite (loop_lookup ns [] H q). simpl.
  pose proof (collected_map q (loop_complete ns [] H)) as Hc.
  destruct (existsb (on_port q) ns) eqn:E; split.
  - split; [discriminate|]. intros F.
    apply existsb_exists in E. destruct E as (n & Hn & Hq).
    assert (Hin : In n (filter (on_port q) ns)) by now apply filter_In.
    now rewrite F in Hin.
  - intros l Hl. injection Hl as <-. exact Hc.
  - split; [|reflexivity]. intros _.
    destruct (filter (on_port q) ns) as [|n l] eqn:F; [reflexivity|].
    assert (Hin : In n (filter (on_port q) ns)) by (rewrite F; now left).
    apply filter_In in Hin.
    assert (existsb (on_port q) ns = true)
      by (apply existsb_exists; exists n; exact Hin).
    congruence.
  - discriminate.
Qed.

Lemma getitem_value (key : string) (n : object) :
  getitem key n <> KeyError key -> exists v, getitem key n = Value v.
Proof.
  destruct (getitem key n) as [v|k] eqn:E; [eauto|].
  rewrite (@getitem_error key k n E). contradiction.
Qed.

Lemma step_error (d : table) (n : object) (k : string) :
  step d n = KeyError k -> getitem k n = KeyError k /\ In k keys.
Proof.
  assert (G : forall key k0, getitem key n = KeyError k0 -> In key keys ->
                             KeyError (A := table) k0 = KeyError k ->
                             getitem k n = KeyError k /\ In k keys).
  { intros key k0 E Hk H. injection H as <-.
    pose proof (getitem_error key n E) as ->. auto. }
  unfold step, neighbor_of.
  destruct (getitem "port" n) as [p|k0] eqn:E0;
    [|apply (G _ _ E0); simpl; auto].
  destruct (getitem "neighborDevice" n) as [h|k1] eqn:E1;
    [|apply (G _ _ E1); simpl; auto].
  destruct (getitem "neighborPort" n) as [r|k2] eqn:E2;
    [|apply (G _ _ E2); simpl; auto].
  destruct (getitem "ttl" n) as [t|k3] eqn:E3;
    [discriminate | apply (G _ _ E3); simpl; auto 10].
Qed.

Lemma step_value (d : table) (n : object) :
  (exists d1, step d n = Value d1) <->
  (forall key, In key keys -> getitem key n <> KeyError key).
Proof.
  split.
  - intros [d1 H] key Hk E. revert H. unfold step, neighbor_of.
    simpl in Hk.
    destruct Hk as [<-|[<-|[<-|[<-|[]]]]]; rewrite ?E;
      repeat (match goal with
              | |- context [match getitem ?a n with _ => _ end] =>
                  destruct (getitem a n); try discriminate
              end);
      rewrite ?E; try discriminate.
  - intros H. unfold step, neighbor_of.
    destruct (@getitem_value "port" n (H "port" ltac:(simpl; tauto))) as [p ->].
    destruct (@getitem_value "neighborDevice" n
                (H "neighborDevice" ltac:(simpl; tauto))) as [h ->].
    destruct (@getitem_value "neighborPort" n
                (H "neighborPort" ltac:(simpl; tauto))) as [r ->].
    destruct (@getitem_value "ttl" n (H "ttl" ltac:(simpl; tauto))) as [t ->].
    eauto.
Qed.

Lemma loop_error (ns : list object) (d : table) (k : string) :
  loop d ns = KeyError k ->
  exists before n after,
    ns = (before ++ n :: after)%list /\
    Forall (fun m => forall key, In key keys ->
                                 getitem key m <> KeyError key) before /\
    getitem k n = KeyError k /\ In k keys.
Proof.
  revert d. induction ns as [|n ns IH]; cbn [loop]; intros d H;
    [discriminate|].
  destruct (step d n) as [d1|k1] eqn:Hs.
  - destruct (IH d1 H) as (before & m & after & -> & Hb & Hm).
    exists (n :: before), m, after. split; [reflexivity|].
    split; [|exact Hm]. constructor; [|exact Hb].
    apply (step_value d n). eauto.
  - injection H as ->. exists [], n, ns.
    split; [reflexivity|]. split; [constructor|].
    exact (step_error d n Hs).
Qed.

Lemma loop_value (ns : list object) (d : table) :
  (exists d', loop d ns = Value d') <->
  Forall (fun m => forall key, In key keys ->
                               getitem key m <> KeyError key) ns.
Proof.
  revert d. induction ns as [|n ns IH]; cbn [loop]; intros d.
  - split; [constructor | eauto].
  - split.
    + intros [d' H]. destruct (step d n) as [d1|k] eqn:Hs; [|discriminate].
      constructor; [apply (step_value d n); eauto | apply (IH d1); eauto].
    + intros H. inversion H as [|? ? Hn Hns]; subst.
      destruct (proj2 (step_value d n) Hn) as [d1 ->].
      now apply IH.
Qed.

(** X17: [get_lldp_neighbors] returns exactly when every entry of the
    answer has the four keys [port], [neighborDevice], [neighborPort] and
    [ttl]; when it raises, the KeyError names one of the four that the
    first incomplete entry lacks. *)
Theorem get_lldp_neighbors_key_error (ns : list object) :
  ((exists d, get_lldp_neighbors ns = Value d) <->
   Forall (fun m => forall key, In key keys ->
                                getitem key m <> KeyError key) ns) /\
  (forall k,
     get_lldp_neighbors ns = KeyError k ->
     exists before n after,
       ns = (before ++ n :: after)%list /\
       Forall (fun m => forall key, In key keys ->
                                    getitem key m <> KeyError key) before /\
       getitem k n = KeyError k /\ In k keys).
Proof.
  split; [apply loop_value | intros k; apply loop_error].
Qed.

Lemma has_key_In (p : json) (d : table) :
  has_key p d = true <-> In p (map fst d).
Proof.
  induction d as [|[k l] d IH]; simpl; [split; [discriminate|tauto]|].
  rewrite orb_true_iff, IH.
  destruct (json_eqb_spec k p); split; intros [H|H]; auto; discriminate.
Qed.

Lemma append_at_new (p : json) (x : neighbor) (d : table) :
  has_key p d = false ->
  append_at p x (d ++ [(p, [])])%list = (d ++ [(p, [x])])%list.
Proof.
  induction d as [|[k l] d IH]; simpl.
  - destruct (json_eqb_spec p p); [reflexivity | contradiction].
  - destruct (json_eqb k p); simpl; [discriminate|].
    intros H. now rewrite IH.
Qed.

Lemma append_at_shape (p : json) (x : neighbor) (d : table) :
  has_key p d = true ->
  map fst (append_at p x d) = map fst d /\
  (Forall (fun kv => snd kv <> []) d ->
   Forall (fun kv => snd kv <> []) (append_at p x d)) /\
  length (concat (map snd (append_at p x d))) =
  S (length (concat (map snd d))).
Proof.
  induction d as [|[k l] d IH]; simpl; [discriminate|].
  destruct (json_eqb k p); simpl.
  - intros _. split; [reflexivity|]. split.
    + intros H. inversion H; subst. constructor; [|assumption].
      simpl. now destruct l.
    + rewrite !length_app. simpl. lia.
  - intros H. destruct (IH H) as (Hk & Hf & Hl). split; [now rewrite Hk|].
    split.
    + intros F. inversion F; subst. constructor; auto.
    + rewrite !length_app, Hl. lia.
Qed.

Lemma NoDup_snoc (p : json) (l : list json) :
  NoDup l -> ~ In p l -> NoDup (l ++ [p])%list.
Proof.
  induction 1 as [|a l Ha Hl IH]; simpl; intros Hp.
  - constructor; [tauto | constructor].
  - constructor; [|tauto].
    intros H. apply in_app_or in H. simpl in H.
    destruct H as [H|[H|[]]]; [tauto|]. subst. tauto.
Qed.

Lemma step_shape (d d1 : table) (n : object) :
  step d n = Value d1 ->
  NoDup (map fst d) -> Forall (fun kv => snd kv <> []) d ->
  NoDup (map fst d1) /\ Forall (fun kv => snd kv <> []) d1 /\
  length (concat (map snd d1)) = S (length (concat (map snd d))).
Proof.
  unfold step. destruct (getitem "port" n) as [p|k]; [|discriminate].
  destruct (neighbor_of n) as [x|k]; [|discriminate].
  intros H Hn Hf. injection H as <-.
  destruct (has_key p d) eqn:Hp.
  - destruct (append_at_shape p x d Hp) as (Hk & Hf' & Hl).
    rewrite Hk. auto.
  - rewrite (append_at_new p x d Hp).
    rewrite !map_app, concat_app, length_app. simpl. split; [|split].
    + apply NoDup_snoc; [exact Hn|].
      intros H. apply has_key_In in H. congruence.
    + apply Forall_app. split; [exact Hf|].
      constructor; [discriminate | constructor].
    + lia.
Qed.

Lemma loop_shape (ns : list object) (d d' : table) :
  loop d ns = Value d' ->
  NoDup (map fst d) -> Forall (fun kv => snd kv <> []) d ->
  NoDup (map fst d') /\ Forall (fun kv => snd kv <> []) d' /\
  length (concat (map snd d')) =
  length (concat (map snd d)) + length ns.
Proof.
  revert d. induction ns as [|n ns IH]; cbn [loop]; intros d H Hn Hf.
  - injection H as <-. simpl. auto with arith.
  - destruct (step d n) as [d1|k] eqn:Hs; [|discriminate].
    destruct (@step_shape d d1 n Hs Hn Hf) as (Hn1 & Hf1 & Hl1).
    destruct (IH d1 H Hn1 Hf1) as (Hn' & Hf' & Hl').
    rewrite Hl', Hl1. simpl. repeat split; auto; lia.
Qed.

(** X18: in the table [get_lldp_neighbors] returns, no port is there
    twice, no port has an empty list, and the lists together have as
    many neighbours as the answer has entries: none is lost and none is
    there twice. *)
Theorem get_lldp_neighbors_table (ns : list object) (d : table) :
  get_lldp_neighbors ns = Value d ->
  NoDup (map fst d) /\
  Forall (fun kv => snd kv <> []) d /\
  length (concat (map snd d)) = length ns.
Proof.
  intros H.
  exact (@loop_shape ns [] d H (NoDup_nil _) (Forall_nil _)).
Qed.

End LldpFacts.

(** ** The paths, run *)

Section BenchRuns.

Import Lab Bench Lldp.

Lemma clean_candidate_of_lines_witness :
  Forall (fun line => ~ In "010"%char (list_ascii_of_string line) /\
                      Py.strip line <> "")
         ["hostname lab"; "interface Ethernet1"] /\
  clean_candidate
    (String.concat (String "010" "") ["hostname lab"; "interface Ethernet1"])
  = ["hostname lab"; "interface Ethernet1"].
Proof.
  assert (H : Forall (fun line =>
                        ~ In "010"%char (list_ascii_of_string line) /\
                        Py.strip line <> "")
                ["hostname lab"; "interface Ethernet1"]).
  { repeat constructor; try discriminate; simpl;
      intros F; repeat (destruct F as [F|F]; try discriminate F);
      contradiction. }
  split; [exact H | exact (clean_candidate_of_lines H)].
Defined.

Lemma no_blank_command_witness :
  staged_text (files start) None (Some with_blank_line)
  = Some with_blank_line /\
  exists commands rest,
    calls (snd (load_merge_candidate stamp None (Some with_blank_line) start))
    = (calls start ++ RunCommands commands :: rest)%list /\
    Forall (fun c => Py.strip c <> "") commands.
Proof.
  split; [reflexivity|].
  exact (proj1 (no_blank_command start stamp None (Some with_blank_line)
                  (text := with_blank_line) eq_refl)).
Defined.

Lemma staging_from_file_witness :
  files (fresh "hostname sw1") "/tmp/candidate.conf" = Some with_end /\
  load_merge_candidate stamp (Some "/tmp/candidate.conf") (Some "ignored")
    (fresh "hostname sw1") =
  load_merge_candidate stamp None (Some with_end) (fresh "hostname sw1").
Proof.
  split; [reflexivity|].
  exact (staging_from_file (fresh "hostname sw1") stamp
           "/tmp/candidate.conf" (Some "ignored") (text := with_end) eq_refl).
Defined.

Lemma staging_unreadable_file_witness :
  files start "/tmp/candidate.conf" = None /\
  exists message,
    load_merge_candidate stamp (Some "/tmp/candidate.conf") None start
    = (Raise (IOError message), start).
Proof.
  split; [reflexivity|].
  exact (staging_unreadable_file start stamp "/tmp/candidate.conf" None
           eq_refl).
Defined.

Lemma merge_staging_accepted_witness :
  staged_text (files start) None (Some with_end) = Some with_end /\
  fst (load_merge_candidate stamp None (Some with_end) start) = Return tt /\
  self (snd (load_merge_candidate stamp None (Some with_end) start)) =
  {| config_replace := false;
     candidate_configuration := Some ["hostname lab"; "end"];
     config_session := Some "napalm_commit_20151104-10111446631200" |}.
Proof.
  split; [reflexivity|].
  pose proof (merge_staging_accepted start stamp None (Some with_end)
                (text := with_end) (d1 := "hostname sw1") eq_refl eq_refl)
    as H.
  split; [exact (f_equal fst H) | exact (f_equal (fun r => self (snd r)) H)].
Defined.

Lemma merge_staging_other_failure_witness :
  staged_text (files (fresh 0)) None (Some with_end) = Some with_end /\
  fst (load_merge_candidate stamp None (Some with_end) (fresh 0))
  = Raise (OtherError "connection lost") /\
  config_session
    (self (snd (load_merge_candidate stamp None (Some with_end) (fresh 0))))
  = Some "napalm_commit_20151104-10111446631200".
Proof.
  split; [reflexivity|].
  assert (He : forall message,
             OtherError "connection lost" <> CommandError message)
    by (intros message; discriminate).
  pose proof (merge_staging_other_failure (fresh 0) stamp None
                (Some with_end) (text := with_end) (d1 := 0)
                eq_refl eq_refl He) as H.
  split; [exact (f_equal fst H)
         | exact (f_equal (fun r => config_session (self (snd r))) H)].
Defined.

Lemma merge_staging_abort_fails_witness :
  staged_text (files (fresh tt)) None (Some with_end) = Some with_end /\
  fst (load_merge_candidate stamp None (Some with_end) (fresh tt))
  = Raise (CommandError "not authorized") /\
  config_session
    (self (snd (load_merge_candidate stamp None (Some with_end) (fresh tt))))
  = Some "napalm_commit_20151104-10111446631200".
Proof.
  split; [reflexivity|].
  pose proof (merge_staging_abort_fails (fresh tt) stamp None
                (Some with_end) (text := with_end)
                (message := "not authorized")
                (e := CommandError "not authorized") (d1 := tt) (d2 := tt)
                eq_refl eq_refl eq_refl) as H.
  split; [exact (f_equal fst H)
         | exact (f_equal (fun r => config_session (self (snd r))) H)].
Defined.

Lemma replace_commit_rejected_witness :
  config_replace (self (replacing tt)) = true /\
  commit_config (replacing tt) =
  (Raise (ReplaceConfigException "not authorized"),
   {| self := self (replacing tt); device := tt;
      calls := [ReplaceConfig]; files := files (replacing tt) |}).
Proof.
  split; [reflexivity|].
  exact (replace_commit_rejected (replacing tt)
           (message := "not authorized") (d1 := tt) eq_refl eq_refl).
Defined.

Lemma replace_commit_persists_witness :
  config_replace (self (replacing 1)) = true /\
  fst (commit_config (replacing 1)) = Raise (OtherError "connection lost") /\
  calls (snd (commit_config (replacing 1))) =
  [ReplaceConfig; RunCommands ["write memory"]].
Proof.
  split; [reflexivity|].
  pose proof (replace_commit_persists (replacing 1) (d1 := 0)
                eq_refl eq_refl) as H.
  split; [exact (f_equal fst H)
         | exact (f_equal (fun r => calls (snd r)) H)].
Defined.

Lemma merge_commit_rejected_witness :
  config_replace (self (fresh tt)) = false /\
  candidate_configuration (self (fresh tt)) = Some [] /\
  fst (commit_config (fresh tt)) = Raise (CommandError "not authorized") /\
  calls (snd (commit_config (fresh tt))) =
  [RunCommands ["configure session None";
                "copy startup-config flash:rollback-0"; "commit"]].
Proof.
  split; [reflexivity|]. split; [reflexivity|].
  pose proof (merge_commit_rejected (fresh tt) (l := [])
                (e := CommandError "not authorized") (d1 := tt)
                eq_refl eq_refl eq_refl) as H.
  split; [exact (f_equal fst H)
         | exact (f_equal (fun r => calls (snd r)) H)].
Defined.

Lemma merge_commit_twice_witness :
  config_replace (self (staged with_two_ends)) = false /\
  candidate_configuration (self (staged with_two_ends)) =
  Some ["interface Ethernet1"; "end"; "interface Ethernet2"; "end"] /\
  exists rest,
    calls (snd (commit_config (snd (commit_config (staged with_two_ends)))))
    =
    (calls (snd (commit_config (staged with_two_ends))) ++
     RunCommands
       ["configure session napalm_commit_20151104-10111446631200";
        "copy startup-config flash:rollback-0";
        "configure session napalm_commit_20151104-10111446631200";
        "copy startup-config flash:rollback-0";
        "interface Ethernet1"; "interface Ethernet2";
        "commit"; "commit"] :: rest)%list.
Proof.
  split; [reflexivity|]. split; [reflexivity|].
  exact (merge_commit_twice (staged with_two_ends)
           (l := ["interface Ethernet1"; "end"; "interface Ethernet2"; "end"])
           eq_refl eq_refl).
Defined.

Lemma merge_commit_without_candidate_witness :
  config_replace (self start) = false /\
  fst (commit_config (snd (load_merge_candidate stamp None None start)))
  = Raise (AttributeError "'NoneType' object has no attribute 'insert'") /\
  calls (snd (commit_config (snd (load_merge_candidate stamp None None start))))
  = [].
Proof.
  split; [reflexivity|].
  pose proof (merge_commit_without_candidate start stamp eq_refl) as H.
  split; [exact (f_equal fst H)
         | exact (f_equal (fun r => calls (snd r)) H)].
Defined.

Lemma commit_after_discard_witness :
  (staged_text (files start) None (Some "hostname lab") = Some "hostname lab" /\
   fst (load_merge_candidate stamp None (Some "hostname lab") start)
   = Return tt /\
   fst (discard_config (staged "hostname lab")) = Return tt) /\
  exists rest,
    calls (snd (commit_config (snd (discard_config (staged "hostname lab")))))
    =
    (calls (snd (discard_config (staged "hostname lab"))) ++
     RunCommands ["configure session None";
                  "copy startup-config flash:rollback-0";
                  "hostname lab"; "commit"] :: rest)%list.
Proof.
  split; [repeat split|].
  exact (commit_after_discard start stamp None (Some "hostname lab")
           (text := "hostname lab") eq_refl eq_refl eq_refl).
Defined.

Lemma get_lldp_neighbors_lookup_witness :
  exists d,
    get_lldp_neighbors answer = Value d /\
    (lookup (JString "Ethernet9") d = None <->
     filter (on_port (JString "Ethernet9")) answer = []) /\
    lookup (JString "Ethernet1") d =
    Some [{| hostname := JString "sw2"; port := JString "Ethernet3";
             ttl := JNumber 120 |};
          {| hostname := JString "sw4"; port := JString "Ethernet7";
             ttl := JNumber 90 |}].
Proof.
  eexists. split; [reflexivity|]. split; [|reflexivity].
  exact (proj1 (get_lldp_neighbors_lookup answer eq_refl
                  (JString "Ethernet9"))).
Defined.

Lemma get_lldp_neighbors_table_witness :
  exists d,
    get_lldp_neighbors answer = Value d /\
    NoDup (map fst d) /\
    length (concat (map snd d)) = length answer.
Proof.
  eexists. split; [reflexivity|].
  pose proof (get_lldp_neighbors_table answer eq_refl) as (Hn & _ & Hl).
  split; [exact Hn | exact Hl].
Defined.

End BenchRuns.

(** ** Rollback and discard when the device refuses *)

Section RecoveryFacts.

Context {D : Type} {eos : EOS D}.

(** X19: when the device fails the replace-from-snapshot command (no
    snapshot, for one), [rollback] raises that error after this single
    call: [write memory] is not sent, the running configuration is not
    read back, and the driver's attributes are untouched. *)
Theorem rollback_rejected (s : state D) (e : exn) (d1 : D) :
  run_commands ["configure replace flash:rollback-0"] (device s)
  = (Raise e, d1) ->
  rollback s =
  (Raise e,
   {| self := self s; device := d1;
      calls :=
        (calls s ++ [RunCommands ["configure replace flash:rollback-0"]])%list;
      files := files s |}).
Proof.
  intros H. driver. fields. rewrite H. reflexivity.
Qed.

(** X20: when the device fails the abort, [discard_config] raises that
    error with the session name still recorded and without touching the
    device's candidate, so that the discard can be tried again for the
    same session. *)
Theorem discard_abort_fails (s : state D) (name : string) (e : exn) (d1 : D) :
  config_session (self s) = Some name ->
  run_commands [("configure session " ++ name)%string; "abort"] (device s)
  = (Raise e, d1) ->
  discard_config s =
  (Raise e,
   {| self := self s; device := d1;
      calls :=
        (calls s ++
         [RunCommands [("configure session " ++ name)%string; "abort"]])%list;
      files := files s |}).
Proof.
  intros Hs H. driver. rewrite Hs. fields. rewrite H. reflexivity.
Qed.

End RecoveryFacts.

Section RecoveryRuns.

Import Lab Bench.

Lemma rollback_rejected_witness :
  run_commands ["configure replace flash:rollback-0"] (device (fresh tt))
  = (Raise (CommandError "not authorized"), tt) /\
  fst (rollback (fresh tt)) = Raise (CommandError "not authorized") /\
  calls (snd (rollback (fresh tt))) =
  [RunCommands ["configure replace flash:rollback-0"]].
Proof.
  split; [reflexivity|].
  pose proof (rollback_rejected (fresh tt)
                (e := CommandError "not authorized") (d1 := tt) eq_refl) as H.
  split; [exact (f_equal fst H)
         | exact (f_equal (fun r => calls (snd r)) H)].
Defined.

Lemma discard_abort_fails_witness :
  config_session
    (self (snd (load_merge_candidate stamp None (Some with_end) (fresh tt))))
  = Some "napalm_commit_20151104-10111446631200" /\
  fst (discard_config
         (snd (load_merge_candidate stamp None (Some with_end) (fresh tt))))
  = Raise (CommandError "not authorized") /\
  config_session
    (self (snd (discard_config
                  (snd (load_merge_candidate stamp None (Some with_end)
                          (fresh tt))))))
  = Some "napalm_commit_20151104-10111446631200".
Proof.
  split; [reflexivity|].
  pose proof (discard_abort_fails
                (snd (load_merge_candidate stamp None (Some with_end)
                        (fresh tt)))
                (name := "napalm_commit_20151104-10111446631200")
                (e := CommandError "not authorized") (d1 := tt)
                eq_refl eq_refl) as H.
  split; [exact (f_equal fst H)
         | exact (f_equal (fun r => config_session (self (snd r))) H)].
Defined.

End RecoveryRuns.
